(** * nvbench::state::exec : tag resolution and measurement dispatch

    A shallow embedding of [state::exec] from
    [nvbench/detail/state_exec.cuh].  Execution tags are bit masks, combined
    with [|] and [&]; the member function re-enters itself with normalised
    tags until a call frame falls through to the construction of the cold
    and hot measurements.  A call frame is modelled by the list of the
    statements it executes, a whole call by the trace of all its frames. *)

From Stdlib Require Import ZArith List Bool Lia String Sorted.
Import ListNotations.

Local Open Scope Z_scope.

Declare Scope tag_scope.
Delimit Scope tag_scope with tag.
Infix ".|" := Z.lor (at level 50, left associativity) : tag_scope.
Infix ".&" := Z.land (at level 40, left associativity) : tag_scope.
Local Open Scope tag_scope.

(** ** Execution tags *)

(** Modelled from the spec: [nvbench/exec_tag.cuh], which declares the
    flags and the two masks, is missing, so the numeric values of the six
    flags are unknown.  They are taken as a parameter: the two selectors
    [cold] and [hot] and the four modifiers [timer], [no_block], [sync] and
    [run_once]. *)
Class exec_flag : Type := {
  timer : Z;
  no_block : Z;
  sync : Z;
  run_once : Z;
  cold : Z;
  hot : Z
}.

(** Modelled from the spec: the flags are "a fixed, closed set of bit-flag
    capabilities partitioned into two disjoint groups"; what is used of it
    is that no flag is empty and that no two flags share a bit. *)
Fixpoint pairwise_disjoint (l : list Z) : bool :=
  match l with
  | [] => true
  | f :: l' => forallb (fun g => f .& g =? 0) l' && pairwise_disjoint l'
  end.

Definition all_flags (F : exec_flag) : list Z :=
  [timer; no_block; sync; run_once; cold; hot].

Definition valid_flags (F : exec_flag) : bool :=
  forallb (fun f => negb (f =? 0)) (all_flags F) && pairwise_disjoint (all_flags F).

(** One assignment of the flags to distinct bits, with the modifiers in
    the low byte and the selectors in the next, as in upstream nvbench. *)
Definition nvbench_flags : exec_flag :=
  {| timer := 0x01; no_block := 0x02; sync := 0x04; run_once := 0x08;
     cold := 0x0100; hot := 0x0200 |}.

(** Modelled from the spec: the two "fixed partition masks that split any
    tag set into its selector component and modifier component via bitwise
    intersection". *)
Definition modifier_mask {F : exec_flag} : Z :=
  timer .| no_block .| sync .| run_once.

Definition measure_mask {F : exec_flag} : Z := cold .| hot.

(** Modelled from the spec: "a tag set is well-formed only if it is a union
    of recognized flags". *)
Definition is_exec_tag {F : exec_flag} (tags : Z) : bool :=
  tags .& (measure_mask .| modifier_mask) =? tags.

(** A tag used as a condition: [if (tags & cold)], [!measure_tags]. *)
Definition truthy (t : Z) : bool := negb (t =? 0).

(** [has tags f] is the test [tags & f] of the source. *)
Definition has (tags f : Z) : bool := truthy (tags .& f).

(** ** The benchmark state and what a call does *)

(** The three queries [state::exec] makes on [*this]. *)
Record state : Type := {
  get_run_once : bool;
  get_disable_blocking_kernel : bool;
  is_skipped : bool
}.

(** The launcher a measurement is built over: the caller's [KL] or the
    [kernel_launch_timer_wrapper<KL>] around it. *)
Inductive launcher : Type :=
| KL
| wrapper_t.

(** [measure_cold<L, use_blocking_kernel>] and
    [measure_hot<L, use_blocking_kernel>]. *)
Inductive measure_t : Type :=
| measure_cold (l : launcher) (use_blocking_kernel : bool)
| measure_hot (l : launcher) (use_blocking_kernel : bool).

(** The statements of a call frame that are visible from outside. *)
Inductive event : Type :=
| call (tags : Z)               (* this->exec(tags, kernel_launcher) *)
| wrap                          (* wrapper_t wrapper{kernel_launcher} *)
| construct (m : measure_t)     (* measure_t measure{*this, ...} *)
| invoke (m : measure_t).       (* measure() *)

(** The messages of the two static assertions of the hot branch. *)
Definition hot_sync_message : string :=
  "Hot measurement doesn't support the `sync` exec_tag.".

Definition hot_timer_message : string :=
  "Hot measurement doesn't support the `timer` exec_tag.".

Section StateExec.

Context {F : exec_flag}.

(** Lines 67-68: the selector and the modifier component of the tags. *)
Definition measure_tags (tags : Z) : Z := tags .& measure_mask.

Definition modifier_tags (tags : Z) : Z := tags .& modifier_mask.

(** Line 73: the tags of the run-once re-entry. *)
Definition run_once_tags (tags : Z) : Z := modifier_tags tags .| cold .| run_once.

(** Line 80: the tags of the no-block re-entry. *)
Definition no_block_tags (tags : Z) : Z := tags .| no_block.

(** Lines 107-124. *)
Definition cold_branch (tags : Z) : list event :=
  if truthy (tags .& cold) then
    let use_blocking_kernel := negb (truthy (tags .& no_block)) in
    if truthy (tags .& timer) then
      [construct (measure_cold KL use_blocking_kernel);
       invoke (measure_cold KL use_blocking_kernel)]
    else
      [wrap;
       construct (measure_cold wrapper_t use_blocking_kernel);
       invoke (measure_cold wrapper_t use_blocking_kernel)]
  else [].

(** Lines 126-134, the run-time part. *)
Definition hot_branch (tags : Z) : list event :=
  if truthy (tags .& hot) then
    let use_blocking_kernel := negb (truthy (tags .& no_block)) in
    [construct (measure_hot KL use_blocking_kernel);
     invoke (measure_hot KL use_blocking_kernel)]
  else [].

(** Lines 128-129: the static assertions of the instantiation for [tags],
    each with its condition and its message.  They sit in the
    [if constexpr (tags & hot)] branch and are discarded with it.  The
    assertion of line 63 is on the type of [tags]; it holds of every tag
    set, which is what [tags] ranges over here. *)
Definition static_asserts (tags : Z) : list (bool * string) :=
  if truthy (tags .& hot) then
    [(negb (truthy (tags .& sync)), hot_sync_message);
     (negb (truthy (tags .& timer)), hot_timer_message)]
  else [].

(** The messages of the assertions that fail. *)
Definition diagnostics (tags : Z) : list string :=
  map snd (filter (fun a => negb (fst a)) (static_asserts tags)).

(** The instantiation for [tags] is accepted by the compiler. *)
Definition accepted (tags : Z) : bool := forallb fst (static_asserts tags).

(** Lines 67-134: the statements one call frame executes. *)
Definition exec_frame (st : state) (tags : Z) : list event :=
  if negb (truthy (modifier_tags tags .& run_once)) && get_run_once st then
    [call (run_once_tags tags)]
  else if negb (truthy (modifier_tags tags .& no_block))
          && get_disable_blocking_kernel st then
    [call (no_block_tags tags)]
  else if negb (truthy (measure_tags tags)) then
    if truthy (modifier_tags tags .& (timer .| sync)) then
      [call (cold .| tags)]
    else
      [call (cold .| hot .| tags)]
  else if is_skipped st then
    []
  else
    cold_branch tags ++ hot_branch tags.

(** The trace of a frame's statements, given the traces of the calls. *)
Fixpoint run (rec : Z -> option (list event)) (body : list event)
  : option (list event) :=
  match body with
  | [] => Some []
  | call t :: rest =>
      match rec t, run rec rest with
      | Some inner, Some after => Some (call t :: inner ++ after)
      | _, _ => None
      end
  | e :: rest => option_map (cons e) (run rec rest)
  end.

(** [state::exec], with a bound on the number of nested frames. *)
Fixpoint exec (fuel : nat) (st : state) (tags : Z) : option (list event) :=
  match fuel with
  | O => None
  | S fuel' => run (exec fuel' st) (exec_frame st tags)
  end.

(** The tags of the calls a frame makes. *)
Definition calls (body : list event) : list Z :=
  flat_map (fun e => match e with call t => [t] | _ => [] end) body.

(** A frame that makes no call: its tags are fully resolved for [st]. *)
Definition fully_resolved (st : state) (tags : Z) : bool :=
  match calls (exec_frame st tags) with
  | [] => true
  | _ :: _ => false
  end.

(** The tag set of the frame in which the chain of re-entries ends. *)
Fixpoint resolve (fuel : nat) (st : state) (tags : Z) : option Z :=
  match fuel with
  | O => None
  | S fuel' =>
      match calls (exec_frame st tags) with
      | [] => Some tags
      | t :: _ => resolve fuel' st t
      end
  end.

(** Line 71: the test of the run-once re-entry. *)
Definition run_once_fires (st : state) (tags : Z) : bool :=
  negb (truthy (modifier_tags tags .& run_once)) && get_run_once st.

(** Line 78: the test of the no-block re-entry. *)
Definition no_block_fires (st : state) (tags : Z) : bool :=
  negb (truthy (modifier_tags tags .& no_block)) && get_disable_blocking_kernel st.

(** Lines 88-96: the tags of the re-entry that supplies a selector. *)
Definition selector_defaults (tags : Z) : Z :=
  if truthy (modifier_tags tags .& (timer .| sync)) then cold .| tags
  else cold .| hot .| tags.

(** The resolution as three passes, each applied once and in the order of
    the source; [resolve] is shown to compute it. *)
Definition canonical (st : state) (tags : Z) : Z :=
  let t1 := if run_once_fires st tags then run_once_tags tags else tags in
  let t2 := if no_block_fires st t1 then no_block_tags t1 else t1 in
  if truthy (measure_tags t2) then t2 else selector_defaults t2.

(** The tags of the successive re-entries of a call. *)
Fixpoint reentries (fuel : nat) (st : state) (tags : Z) : list Z :=
  match fuel with
  | O => []
  | S fuel' =>
      match calls (exec_frame st tags) with
      | [] => []
      | t :: _ => t :: reentries fuel' st t
      end
  end.

(** The number of re-entries a frame for [tags] still has before it in
    state [st]: the run-once re-entry also settles the selector, the
    no-block re-entry and the selector defaulting settle one thing each. *)
Definition pending (st : state) (tags : Z) : nat :=
  let no_block_pending := if no_block_fires st tags then 1%nat else 0%nat in
  if run_once_fires st tags then (1 + no_block_pending)%nat
  else (no_block_pending + if truthy (measure_tags tags) then 0 else 1)%nat.

(** The specialisations of [exec] that the body for [tags] names.  The
    first two tests of the body are ordinary [if]s, so both re-entries are
    instantiated whatever the state; of the selector defaults only the
    branch [if constexpr] keeps. *)
Definition instantiations (tags : Z) : list Z :=
  [run_once_tags tags; no_block_tags tags]
  ++ (if negb (truthy (measure_tags tags)) then
        if truthy (modifier_tags tags .& (timer .| sync)) then [cold .| tags]
        else [cold .| hot .| tags]
      else []).

(** Every specialisation the compiler has to instantiate for a call with
    [tags]. *)
Inductive instantiated (tags : Z) : Z -> Prop :=
| inst_here : instantiated tags tags
| inst_next t t' : instantiated tags t -> In t' (instantiations t) ->
                   instantiated tags t'.

(** The call [exec(tags, ...)] compiles: no instantiation it needs trips a
    static assertion. *)
Definition compiles (tags : Z) : Prop :=
  forall t, instantiated tags t -> accepted t = true.

(** What the spec calls the order "in which state flags trigger": the
    frame of the source with the first two tests exchanged, no-block before
    run-once.  It is not in the source; the resolution through it is
    compared with [resolve]. *)
Definition exec_frame_no_block_first (st : state) (tags : Z) : list event :=
  if negb (truthy (modifier_tags tags .& no_block))
     && get_disable_blocking_kernel st then
    [call (no_block_tags tags)]
  else if negb (truthy (modifier_tags tags .& run_once)) && get_run_once st then
    [call (run_once_tags tags)]
  else if negb (truthy (measure_tags tags)) then
    if truthy (modifier_tags tags .& (timer .| sync)) then
      [call (cold .| tags)]
    else
      [call (cold .| hot .| tags)]
  else if is_skipped st then
    []
  else
    cold_branch tags ++ hot_branch tags.

Fixpoint resolve_no_block_first (fuel : nat) (st : state) (tags : Z) : option Z :=
  match fuel with
  | O => None
  | S fuel' =>
      match calls (exec_frame_no_block_first st tags) with
      | [] => Some tags
      | t :: _ => resolve_no_block_first fuel' st t
      end
  end.

End StateExec.

(** Some states, named by the flags they have set. *)
Definition plain_state : state :=
  {| get_run_once := false; get_disable_blocking_kernel := false;
     is_skipped := false |}.

Definition run_once_state : state :=
  {| get_run_once := true; get_disable_blocking_kernel := false;
     is_skipped := false |}.

Definition no_block_state : state :=
  {| get_run_once := false; get_disable_blocking_kernel := true;
     is_skipped := false |}.

Definition profiling_state : state :=
  {| get_run_once := true; get_disable_blocking_kernel := true;
     is_skipped := false |}.

Definition skipped_state : state :=
  {| get_run_once := false; get_disable_blocking_kernel := true;
     is_skipped := true |}.

(** Classification of the events of a trace. *)
Definition is_call (e : event) : bool :=
  match e with call _ => true | _ => false end.

Definition is_cold (m : measure_t) : bool :=
  match m with measure_cold _ _ => true | measure_hot _ _ => false end.

Definition is_hot (m : measure_t) : bool :=
  match m with measure_hot _ _ => true | measure_cold _ _ => false end.

(** Events that build or run a measurement of the kind [k]. *)
Definition uses (k : measure_t -> bool) (e : event) : bool :=
  match e with
  | construct m | invoke m => k m
  | _ => false
  end.

Definition invokes (k : measure_t -> bool) (e : event) : bool :=
  match e with
  | invoke m => k m
  | _ => false
  end.

Definition count (p : event -> bool) (tr : list event) : nat :=
  List.length (filter p tr).

(** The measurement an event builds or runs, and its two parameters. *)
Definition measurement (e : event) : option measure_t :=
  match e with
  | construct m | invoke m => Some m
  | _ => None
  end.

Definition launcher_of (m : measure_t) : launcher :=
  match m with measure_cold l _ | measure_hot l _ => l end.

Definition use_blocking_kernel_of (m : measure_t) : bool :=
  match m with measure_cold _ b | measure_hot _ b => b end.

(** The place of a statement in the body of [exec]: the re-entries of
    lines 71-98 first, then the wrapper, the cold measurement and its
    invocation (lines 107-124), then the hot measurement and its
    invocation (lines 126-134). *)
Definition phase (e : event) : nat :=
  match e with
  | call _ => 0
  | wrap => 1
  | construct (measure_cold _ _) => 2
  | invoke (measure_cold _ _) => 3
  | construct (measure_hot _ _) => 4
  | invoke (measure_hot _ _) => 5
  end.

(** The events of a trace that are not re-entries. *)
Definition measurements (tr : list event) : list event :=
  filter (fun e => negb (is_call e)) tr.

Section Specialisations.

Context {F : exec_flag}.

(** The tag sets for which a call with [tags] has [exec] instantiated:
    the caller's, its two normalisations and their combination, and, when
    the caller gave no selector, the defaulted tags with and without
    [no_block]. *)
Definition specialisations (tags : Z) : list Z :=
  [tags; run_once_tags tags; no_block_tags tags;
   no_block_tags (run_once_tags tags)]
  ++ (if truthy (measure_tags tags) then []
      else [selector_defaults tags; no_block_tags (selector_defaults tags)]).

End Specialisations.

(** ** The algebra of tags *)

Lemma truthy_false (t : Z) : truthy t = false <-> t = 0.
Proof.
  unfold truthy. rewrite negb_false_iff. apply Z.eqb_eq.
Qed.

Lemma truthy_true (t : Z) : truthy t = true <-> t <> 0.
Proof.
  unfold truthy. rewrite negb_true_iff. apply Z.eqb_neq.
Qed.

Lemma truthy_lor (a b : Z) : truthy (a .| b) = truthy a || truthy b.
Proof.
  destruct (truthy a) eqn:Ha, (truthy b) eqn:Hb; simpl;
    rewrite ?truthy_true, ?truthy_false in *;
    rewrite Z.lor_eq_0_iff; tauto.
Qed.

Lemma has_lor_l (a b f : Z) : has (a .| b) f = has a f || has b f.
Proof.
  unfold has. rewrite Z.land_lor_distr_l. apply truthy_lor.
Qed.

Lemma has_lor_r (a f g : Z) : has a (f .| g) = has a f || has a g.
Proof.
  unfold has. rewrite Z.land_lor_distr_r. apply truthy_lor.
Qed.

Lemma has_self (f : Z) : f <> 0 -> has f f = true.
Proof.
  intros Hf. unfold has. rewrite Z.land_diag. now apply truthy_true.
Qed.

Lemma has_disjoint (f g : Z) : f .& g = 0 -> has f g = false.
Proof.
  intros H. unfold has. now apply truthy_false.
Qed.

Lemma has_disjoint_sym (f g : Z) : f .& g = 0 -> has g f = false.
Proof.
  intros H. apply has_disjoint. now rewrite Z.land_comm.
Qed.

Lemma has_land_inside (a m f : Z) : m .& f = f -> has (a .& m) f = has a f.
Proof.
  intros H. unfold has. now rewrite <- Z.land_assoc, H.
Qed.

Lemma has_land_outside (a m f : Z) : m .& f = 0 -> has (a .& m) f = false.
Proof.
  intros H. unfold has. rewrite <- Z.land_assoc, H, Z.land_0_r. reflexivity.
Qed.

Lemma disjoint_bits (f g : Z) :
  f .& g = 0 -> forall n, Z.testbit f n && Z.testbit g n = false.
Proof.
  intros H n. rewrite <- Z.land_spec, H. apply Z.bits_0.
Qed.

Section Algebra.

Context {F : exec_flag}.
Hypothesis flags_ok : valid_flags F = true.

Lemma flags_nonzero :
  timer <> 0 /\ no_block <> 0 /\ sync <> 0 /\ run_once <> 0 /\ cold <> 0 /\ hot <> 0.
Proof using flags_ok.
  pose proof flags_ok as H. unfold valid_flags, all_flags in H.
  cbn [forallb pairwise_disjoint] in H.
  rewrite !andb_true_iff, !negb_true_iff, !Z.eqb_neq in H. tauto.
Qed.

Lemma flags_disjoint :
  (timer .& no_block = 0 /\ timer .& sync = 0 /\ timer .& run_once = 0
   /\ timer .& cold = 0 /\ timer .& hot = 0)
  /\ (no_block .& sync = 0 /\ no_block .& run_once = 0
      /\ no_block .& cold = 0 /\ no_block .& hot = 0)
  /\ (sync .& run_once = 0 /\ sync .& cold = 0 /\ sync .& hot = 0)
  /\ (run_once .& cold = 0 /\ run_once .& hot = 0)
  /\ cold .& hot = 0.
Proof using flags_ok.
  pose proof flags_ok as H. unfold valid_flags, all_flags in H.
  cbn [forallb pairwise_disjoint] in H.
  rewrite !andb_true_iff, !Z.eqb_eq in H. tauto.
Qed.

End Algebra.

(** Bring the facts about the flags into the context. *)
Ltac flag_facts H :=
  let N := fresh "Hnz" in
  let D := fresh "Hdj" in
  pose proof (flags_nonzero H) as N;
  pose proof (flags_disjoint H) as D;
  decompose [and] N; decompose [and] D; clear N D.

(** Decide an equation between tag sets bit by bit, from the equations
    of the context. *)
Ltac bit_specs :=
  repeat first [ rewrite Z.land_spec | rewrite Z.lor_spec
               | rewrite Z.ldiff_spec | rewrite Z.bits_0 ].

Ltac tag_bits H :=
  flag_facts H;
  apply Z.bits_inj'; intros ?n _;
  repeat match goal with
         | E : @eq Z _ _ |- _ =>
             apply (f_equal (fun z => Z.testbit z n)) in E; cbv beta in E;
             revert E
         end;
  bit_specs;
  repeat match goal with
         | |- context [Z.testbit ?x ?k] => destruct (Z.testbit x k)
         end;
  simpl; intros; congruence.

Section Masks.

Context {F : exec_flag}.
Hypothesis flags_ok : valid_flags F = true.

Lemma modifier_mask_modifiers :
  modifier_mask .& timer = timer /\ modifier_mask .& no_block = no_block
  /\ modifier_mask .& sync = sync /\ modifier_mask .& run_once = run_once.
Proof using flags_ok.
  unfold modifier_mask. repeat split; tag_bits flags_ok.
Qed.

Lemma modifier_mask_selectors :
  modifier_mask .& cold = 0 /\ modifier_mask .& hot = 0.
Proof using flags_ok.
  unfold modifier_mask. split; tag_bits flags_ok.
Qed.

Lemma measure_mask_selectors :
  measure_mask .& cold = cold /\ measure_mask .& hot = hot.
Proof using flags_ok.
  unfold measure_mask. split; tag_bits flags_ok.
Qed.

Lemma measure_mask_modifiers :
  measure_mask .& timer = 0 /\ measure_mask .& no_block = 0
  /\ measure_mask .& sync = 0 /\ measure_mask .& run_once = 0.
Proof using flags_ok.
  unfold measure_mask. repeat split; tag_bits flags_ok.
Qed.

End Masks.

(** Bring the facts about the two masks into the context. *)
Ltac mask_facts H :=
  let M := fresh "Hm" in
  pose proof (modifier_mask_modifiers H) as M; decompose [and] M; clear M;
  pose proof (modifier_mask_selectors H) as M; decompose [and] M; clear M;
  pose proof (measure_mask_selectors H) as M; decompose [and] M; clear M;
  pose proof (measure_mask_modifiers H) as M; decompose [and] M; clear M.

Lemma has_measure_mask {F : exec_flag} (a : Z) :
  has a measure_mask = has a cold || has a hot.
Proof.
  unfold measure_mask. apply has_lor_r.
Qed.

(** Reduce every test in the goal to tests of the caller's tags against
    single flags. *)
Ltac has_step :=
  match goal with
  | |- context [has _ measure_mask] => rewrite has_measure_mask
  | |- context [has (_ .| _) _] => rewrite has_lor_l
  | |- context [has _ (_ .| _)] => rewrite has_lor_r
  | E : ?m .& ?f = ?f |- context [has (?a .& ?m) ?f] =>
      rewrite (has_land_inside a m f E)
  | E : ?m .& ?f = 0 |- context [has (?a .& ?m) ?f] =>
      rewrite (has_land_outside a m f E)
  | E : ?f .& ?g = 0 |- context [has ?f ?g] => rewrite (has_disjoint f g E)
  | E : ?f .& ?g = 0 |- context [has ?g ?f] => rewrite (has_disjoint_sym f g E)
  | E : ?f <> 0 |- context [has ?f ?f] => rewrite (has_self f E)
  end.

Ltac has_norm H :=
  flag_facts H; mask_facts H;
  unfold run_once_tags, no_block_tags, modifier_tags, measure_tags;
  change (truthy (?a .& ?f)) with (has a f);
  repeat has_step;
  rewrite ?orb_false_r, ?orb_false_l, ?orb_true_r, ?orb_true_l.

(** Rewrite with every equation of a conjunction. *)
Ltac rewrite_conj H :=
  match type of H with
  | _ /\ _ =>
      let A := fresh in
      let B := fresh in
      destruct H as [A B]; rewrite_conj A; rewrite_conj B
  | _ => rewrite ?H; clear H
  end.

Ltac rewrite_has lem :=
  let H := fresh in pose proof lem as H; rewrite_conj H.

Section Frames.

Context {F : exec_flag}.
Hypothesis flags_ok : valid_flags F = true.

(** The tests of a frame, each on one flag of the caller's tags. *)
Lemma exec_frame_tests (st : state) (tags : Z) :
  exec_frame st tags =
  if negb (has tags run_once) && get_run_once st then
    [call (run_once_tags tags)]
  else if negb (has tags no_block) && get_disable_blocking_kernel st then
    [call (no_block_tags tags)]
  else if negb (has tags cold || has tags hot) then
    if has tags timer || has tags sync then [call (cold .| tags)]
    else [call (cold .| hot .| tags)]
  else if is_skipped st then []
  else cold_branch tags ++ hot_branch tags.
Proof using flags_ok.
  unfold exec_frame.
  replace (truthy (modifier_tags tags .& run_once)) with (has tags run_once)
    by (symmetry; has_norm flags_ok; reflexivity).
  replace (truthy (modifier_tags tags .& no_block)) with (has tags no_block)
    by (symmetry; has_norm flags_ok; reflexivity).
  replace (truthy (measure_tags tags)) with (has tags cold || has tags hot)
    by (symmetry; has_norm flags_ok; reflexivity).
  replace (truthy (modifier_tags tags .& (timer .| sync)))
    with (has tags timer || has tags sync)
    by (symmetry; has_norm flags_ok; reflexivity).
  reflexivity.
Qed.

(** The flags of the tags a frame re-enters with. *)
Lemma has_run_once_tags (tags : Z) :
  has (run_once_tags tags) timer = has tags timer
  /\ has (run_once_tags tags) no_block = has tags no_block
  /\ has (run_once_tags tags) sync = has tags sync
  /\ has (run_once_tags tags) run_once = true
  /\ has (run_once_tags tags) cold = true
  /\ has (run_once_tags tags) hot = false.
Proof using flags_ok.
  repeat split; has_norm flags_ok; reflexivity.
Qed.

Lemma has_no_block_tags (tags : Z) :
  has (no_block_tags tags) timer = has tags timer
  /\ has (no_block_tags tags) no_block = true
  /\ has (no_block_tags tags) sync = has tags sync
  /\ has (no_block_tags tags) run_once = has tags run_once
  /\ has (no_block_tags tags) cold = has tags cold
  /\ has (no_block_tags tags) hot = has tags hot.
Proof using flags_ok.
  repeat split; has_norm flags_ok; reflexivity.
Qed.

Lemma has_cold_default (tags : Z) :
  has (cold .| tags) timer = has tags timer
  /\ has (cold .| tags) no_block = has tags no_block
  /\ has (cold .| tags) sync = has tags sync
  /\ has (cold .| tags) run_once = has tags run_once
  /\ has (cold .| tags) cold = true
  /\ has (cold .| tags) hot = has tags hot.
Proof using flags_ok.
  repeat split; has_norm flags_ok; reflexivity.
Qed.

Lemma has_cold_hot_default (tags : Z) :
  has (cold .| hot .| tags) timer = has tags timer
  /\ has (cold .| hot .| tags) no_block = has tags no_block
  /\ has (cold .| hot .| tags) sync = has tags sync
  /\ has (cold .| hot .| tags) run_once = has tags run_once
  /\ has (cold .| hot .| tags) cold = true
  /\ has (cold .| hot .| tags) hot = true.
Proof using flags_ok.
  repeat split; has_norm flags_ok; reflexivity.
Qed.

End Frames.

(** ** Frames and traces *)

Lemma run_single_call (rec : Z -> option (list event)) (t : Z) :
  run rec [call t] = option_map (cons (call t)) (rec t).
Proof.
  simpl. destruct (rec t) as [inner|]; simpl; [now rewrite app_nil_r | reflexivity].
Qed.

Lemma run_no_call (rec : Z -> option (list event)) (body : list event) :
  calls body = [] -> run rec body = Some body.
Proof.
  induction body as [|e body IH]; simpl; [reflexivity|].
  destruct e; simpl; try discriminate; intros H; now rewrite (IH H).
Qed.

Lemma count_app (p : event -> bool) (a b : list event) :
  count p (a ++ b) = (count p a + count p b)%nat.
Proof.
  unfold count. now rewrite filter_app, length_app.
Qed.

Lemma count_map_call (p : event -> bool) (ts : list Z) :
  (forall t, p (call t) = false) -> count p (map call ts) = 0%nat.
Proof.
  intros Hp. unfold count. induction ts as [|t ts IH]; simpl; [reflexivity|].
  now rewrite Hp.
Qed.

Lemma count_is_call_map_call (ts : list Z) :
  count is_call (map call ts) = List.length ts.
Proof.
  unfold count. induction ts as [|t ts IH]; simpl; [reflexivity|].
  now rewrite IH.
Qed.

Section Measurements.

Context {F : exec_flag}.

Lemma calls_measurements (tags : Z) :
  calls (cold_branch tags ++ hot_branch tags) = [].
Proof.
  unfold cold_branch, hot_branch.
  destruct (truthy (tags .& cold)), (truthy (tags .& timer)),
    (truthy (tags .& hot)); reflexivity.
Qed.

End Measurements.

Section Resolution.

Context {F : exec_flag}.
Hypothesis flags_ok : valid_flags F = true.

Lemma run_once_fires_test (st : state) (tags : Z) :
  run_once_fires st tags = negb (has tags run_once) && get_run_once st.
Proof using flags_ok.
  unfold run_once_fires. f_equal. f_equal. has_norm flags_ok. reflexivity.
Qed.

Lemma no_block_fires_test (st : state) (tags : Z) :
  no_block_fires st tags = negb (has tags no_block) && get_disable_blocking_kernel st.
Proof using flags_ok.
  unfold no_block_fires. f_equal. f_equal. has_norm flags_ok. reflexivity.
Qed.

Lemma pending_tests (st : state) (tags : Z) :
  pending st tags =
  let no_block_pending :=
    if negb (has tags no_block) && get_disable_blocking_kernel st
    then 1%nat else 0%nat in
  if negb (has tags run_once) && get_run_once st then (1 + no_block_pending)%nat
  else (no_block_pending + if has tags cold || has tags hot then 0 else 1)%nat.
Proof using flags_ok.
  unfold pending. rewrite run_once_fires_test, no_block_fires_test.
  replace (truthy (measure_tags tags)) with (has tags cold || has tags hot)
    by (symmetry; has_norm flags_ok; reflexivity).
  reflexivity.
Qed.

(** A frame that re-enters [exec] does nothing else, and the frame it
    enters has fewer re-entries before it. *)
Lemma frame_call (st : state) (tags t : Z) :
  In t (calls (exec_frame st tags)) ->
  exec_frame st tags = [call t] /\ (pending st t < pending st tags)%nat.
Proof using flags_ok.
  rewrite !pending_tests, (exec_frame_tests flags_ok).
  destruct (negb (has tags run_once) && get_run_once st) eqn:G1.
  { intros [<-|[]]. split; [reflexivity|].
    rewrite_has (has_run_once_tags flags_ok tags). simpl.
    destruct (negb (has tags no_block) && get_disable_blocking_kernel st);
      simpl; lia. }
  destruct (negb (has tags no_block) && get_disable_blocking_kernel st) eqn:G2.
  { intros [<-|[]]. split; [reflexivity|].
    rewrite_has (has_no_block_tags flags_ok tags). rewrite G1. simpl.
    destruct (has tags cold || has tags hot); simpl; lia. }
  destruct (has tags cold || has tags hot) eqn:G3; simpl.
  { destruct (is_skipped st); [intros []|].
    rewrite calls_measurements. intros []. }
  destruct (has tags timer || has tags sync) eqn:G4.
  - intros [<-|[]]. split; [reflexivity|].
    rewrite_has (has_cold_default flags_ok tags). rewrite G1, G2. simpl. lia.
  - intros [<-|[]]. split; [reflexivity|].
    rewrite_has (has_cold_hot_default flags_ok tags). rewrite G1, G2. simpl. lia.
Qed.

Lemma pending_le_2 (st : state) (tags : Z) : (pending st tags <= 2)%nat.
Proof.
  unfold pending.
  destruct (run_once_fires st tags), (no_block_fires st tags),
    (truthy (measure_tags tags)); simpl; lia.
Qed.

Lemma frame_cases (st : state) (tags : Z) :
  (exists t, exec_frame st tags = [call t] /\ calls (exec_frame st tags) = [t])
  \/ calls (exec_frame st tags) = [].
Proof using flags_ok.
  destruct (calls (exec_frame st tags)) as [|t ts] eqn:E; [now right|left].
  destruct (frame_call st tags t) as [Hf _]; [rewrite E; now left|].
  exists t. rewrite Hf in E |- *. simpl in E. split; [reflexivity|].
  now rewrite <- E.
Qed.

(** One step of the three recursions over the frames of a call. *)
Lemma exec_step (fuel : nat) (st : state) (tags : Z) :
  exec (S fuel) st tags =
  match calls (exec_frame st tags) with
  | [] => Some (exec_frame st tags)
  | t :: _ => option_map (cons (call t)) (exec fuel st t)
  end.
Proof using flags_ok.
  cbn [exec]. destruct (frame_cases st tags) as [(t & Hf & Hc)|Hc]; rewrite Hc.
  - rewrite Hf. apply run_single_call.
  - now apply run_no_call.
Qed.

(** With more fuel than re-entries are pending, a call runs to its end:
    its trace is the re-entries followed by the statements of the frame
    for the resolved tags. *)
Lemma exec_trace (fuel : nat) (st : state) (tags : Z) :
  (pending st tags < fuel)%nat ->
  exists c,
    resolve fuel st tags = Some c
    /\ fully_resolved st c = true
    /\ exec fuel st tags = Some (map call (reentries fuel st tags) ++ exec_frame st c)
    /\ (List.length (reentries fuel st tags) <= pending st tags)%nat.
Proof using flags_ok.
  revert tags. induction fuel as [|fuel IH]; intros tags Hp; [lia|].
  rewrite exec_step. cbn [resolve reentries]. unfold fully_resolved.
  destruct (calls (exec_frame st tags)) as [|t ts] eqn:E.
  - exists tags. rewrite E. simpl. repeat split. lia.
  - destruct (frame_call st tags t) as [_ Hlt]; [rewrite E; now left|].
    destruct (IH t) as (c & Hr & Hfr & He & Hlen); [lia|].
    exists c. rewrite Hr, He. simpl. repeat split; [assumption | lia].
Qed.

End Resolution.

(** ** The steps of the resolution *)

Section Steps.

Context {F : exec_flag}.
Hypothesis flags_ok : valid_flags F = true.

(** C1: when the tags lack [run_once] and the state asks for a single run,
    the frame consists of one re-entry, with the tags
    [modifier_tags | cold | run_once], and of nothing after it.  The
    selector of these tags is [cold] alone, whatever selector the caller
    gave, and their modifiers are the caller's with [run_once] added. *)
Theorem run_once_normalization (st : state) (tags : Z) :
  has tags run_once = false ->
  get_run_once st = true ->
  let run_once_tags := modifier_tags tags .| cold .| run_once in
  exec_frame st tags = [call run_once_tags]
  /\ measure_tags run_once_tags = cold
  /\ modifier_tags run_once_tags = modifier_tags tags .| run_once
  /\ forall fuel,
       exec (S fuel) st tags
       = option_map (cons (call run_once_tags)) (exec fuel st run_once_tags).
Proof using flags_ok.
  intros Hro Hst ro_tags.
  assert (Hf : exec_frame st tags = [call ro_tags]).
  { rewrite (exec_frame_tests flags_ok), Hro, Hst. reflexivity. }
  repeat split.
  - exact Hf.
  - subst ro_tags. unfold measure_tags, modifier_tags, measure_mask, modifier_mask.
    clear Hro Hf. tag_bits flags_ok.
  - subst ro_tags. unfold modifier_tags, modifier_mask.
    clear Hro Hf. tag_bits flags_ok.
  - intros fuel. cbn [exec]. rewrite Hf. apply run_single_call.
Qed.

(** C8: when the tags lack [no_block], the state has the blocking kernel
    disabled and the run-once test of the frame fails, the frame consists
    of one re-entry with [tags | no_block] and of nothing after it; these
    tags keep every bit of [tags], and what they add is [no_block]. *)
Theorem no_block_normalization (st : state) (tags : Z) :
  has tags no_block = false ->
  get_disable_blocking_kernel st = true ->
  run_once_fires st tags = false ->
  exec_frame st tags = [call (tags .| no_block)]
  /\ (tags .| no_block) .& tags = tags
  /\ Z.ldiff (tags .| no_block) tags = no_block
  /\ forall fuel,
       exec (S fuel) st tags
       = option_map (cons (call (tags .| no_block))) (exec fuel st (tags .| no_block)).
Proof using flags_ok.
  intros Hnb Hst Hro.
  assert (Hf : exec_frame st tags = [call (tags .| no_block)]).
  { rewrite (exec_frame_tests flags_ok), <- (run_once_fires_test flags_ok),
      Hro, Hnb, Hst.
    reflexivity. }
  repeat split.
  - exact Hf.
  - clear. apply Z.bits_inj'. intros n _.
    rewrite Z.land_spec, Z.lor_spec.
    now destruct (Z.testbit tags n), (Z.testbit no_block n).
  - apply truthy_false in Hnb. clear Hf Hro Hst. tag_bits flags_ok.
  - intros fuel. cbn [exec]. rewrite Hf. apply run_single_call.
Qed.

(** C2, as amended: in a frame whose tags have no selector and in which
    neither the run-once nor the no-block test fires, the frame consists
    of one re-entry and of nothing after it: with [cold | tags] when the
    modifiers contain [timer] or [sync], and then the selector is [cold]
    alone and stays so, since no further re-entry follows; with
    [cold | hot | tags] otherwise, and then the selector is both. *)
Theorem selector_defaulting (st : state) (tags : Z) :
  measure_tags tags = 0 ->
  run_once_fires st tags = false ->
  no_block_fires st tags = false ->
  let defaults :=
    if truthy (modifier_tags tags .& (timer .| sync)) then cold .| tags
    else cold .| hot .| tags in
  exec_frame st tags = [call defaults]
  /\ measure_tags defaults
     = (if truthy (modifier_tags tags .& (timer .| sync)) then cold
        else cold .| hot)
  /\ fully_resolved st defaults = true
  /\ forall fuel,
       exec (S fuel) st tags
       = option_map (cons (call defaults)) (exec fuel st defaults).
Proof using flags_ok.
  intros Hsel Hro Hnb defaults.
  assert (Hc : has tags cold || has tags hot = false).
  { rewrite <- has_measure_mask. unfold has. now apply truthy_false. }
  assert (Hf : exec_frame st tags = [call defaults]).
  { unfold exec_frame. fold (run_once_fires st tags) (no_block_fires st tags).
    rewrite Hro, Hnb, Hsel. subst defaults. simpl.
    now destruct (truthy (modifier_tags tags .& (timer .| sync))). }
  rewrite (run_once_fires_test flags_ok) in Hro.
  rewrite (no_block_fires_test flags_ok) in Hnb.
  repeat split.
  - exact Hf.
  - subst defaults. unfold measure_tags, measure_mask in *.
    clear Hf Hc Hro Hnb.
    destruct (truthy (modifier_tags tags .& (timer .| sync))); tag_bits flags_ok.
  - unfold fully_resolved. rewrite (exec_frame_tests flags_ok). subst defaults.
    destruct (truthy (modifier_tags tags .& (timer .| sync))).
    + rewrite_has (has_cold_default flags_ok tags). rewrite Hro, Hnb. simpl.
      destruct (is_skipped st); [reflexivity|]. now rewrite calls_measurements.
    + rewrite_has (has_cold_hot_default flags_ok tags). rewrite Hro, Hnb. simpl.
      destruct (is_skipped st); [reflexivity|]. now rewrite calls_measurements.
  - intros fuel. cbn [exec]. rewrite Hf. apply run_single_call.
Qed.

End Steps.

(** ** The whole resolution *)

Lemma count_is_call_calls (body : list event) :
  count is_call body = List.length (calls body).
Proof.
  unfold count. induction body as [|e body IH]; simpl; [reflexivity|].
  destruct e; simpl; now rewrite IH.
Qed.

Section Canonical.

Context {F : exec_flag}.
Hypothesis flags_ok : valid_flags F = true.

(** The re-entry of a frame, by the three tests of the source. *)
Lemma calls_frame (st : state) (tags : Z) :
  calls (exec_frame st tags) =
  if run_once_fires st tags then [run_once_tags tags]
  else if no_block_fires st tags then [no_block_tags tags]
  else if truthy (measure_tags tags) then []
  else [selector_defaults tags].
Proof.
  unfold exec_frame, selector_defaults.
  fold (run_once_fires st tags) (no_block_fires st tags).
  destruct (run_once_fires st tags); [reflexivity|].
  destruct (no_block_fires st tags); [reflexivity|].
  destruct (truthy (measure_tags tags)); simpl.
  - destruct (is_skipped st); [reflexivity | apply calls_measurements].
  - now destruct (truthy (modifier_tags tags .& (timer .| sync))).
Qed.

Lemma calls_frame_no_block_first (st : state) (tags : Z) :
  calls (exec_frame_no_block_first st tags) =
  if no_block_fires st tags then [no_block_tags tags]
  else if run_once_fires st tags then [run_once_tags tags]
  else if truthy (measure_tags tags) then []
  else [selector_defaults tags].
Proof.
  unfold exec_frame_no_block_first, selector_defaults.
  fold (run_once_fires st tags) (no_block_fires st tags).
  destruct (no_block_fires st tags); [reflexivity|].
  destruct (run_once_fires st tags); [reflexivity|].
  destruct (truthy (measure_tags tags)); simpl.
  - destruct (is_skipped st); [reflexivity | apply calls_measurements].
  - now destruct (truthy (modifier_tags tags .& (timer .| sync))).
Qed.

Lemma truthy_measure_tags (tags : Z) :
  truthy (measure_tags tags) = has tags cold || has tags hot.
Proof.
  unfold measure_tags. apply has_measure_mask.
Qed.

Lemma has_selector_defaults (tags : Z) :
  has (selector_defaults tags) timer = has tags timer
  /\ has (selector_defaults tags) no_block = has tags no_block
  /\ has (selector_defaults tags) sync = has tags sync
  /\ has (selector_defaults tags) run_once = has tags run_once
  /\ has (selector_defaults tags) cold = true
  /\ has (selector_defaults tags) hot
     = (has tags hot || negb (has tags timer || has tags sync)).
Proof using flags_ok.
  unfold selector_defaults.
  replace (truthy (modifier_tags tags .& (timer .| sync)))
    with (has tags timer || has tags sync)
    by (symmetry; has_norm flags_ok; reflexivity).
  destruct (has tags timer || has tags sync).
  - rewrite_has (has_cold_default flags_ok tags).
    rewrite orb_false_r. repeat split.
  - rewrite_has (has_cold_hot_default flags_ok tags).
    rewrite orb_true_r. repeat split.
Qed.

(** How the three tests fare on the tags of a re-entry. *)
Lemma tests_run_once_tags (st : state) (tags : Z) :
  run_once_fires st (run_once_tags tags) = false
  /\ no_block_fires st (run_once_tags tags) = no_block_fires st tags
  /\ truthy (measure_tags (run_once_tags tags)) = true.
Proof using flags_ok.
  rewrite !(run_once_fires_test flags_ok), !(no_block_fires_test flags_ok),
    !truthy_measure_tags.
  rewrite_has (has_run_once_tags flags_ok tags). repeat split.
Qed.

Lemma tests_no_block_tags (st : state) (tags : Z) :
  run_once_fires st (no_block_tags tags) = run_once_fires st tags
  /\ no_block_fires st (no_block_tags tags) = false
  /\ truthy (measure_tags (no_block_tags tags)) = truthy (measure_tags tags).
Proof using flags_ok.
  rewrite !(run_once_fires_test flags_ok), !(no_block_fires_test flags_ok),
    !truthy_measure_tags.
  rewrite_has (has_no_block_tags flags_ok tags). repeat split.
Qed.

Lemma tests_selector_defaults (st : state) (tags : Z) :
  run_once_fires st (selector_defaults tags) = run_once_fires st tags
  /\ no_block_fires st (selector_defaults tags) = no_block_fires st tags
  /\ truthy (measure_tags (selector_defaults tags)) = true.
Proof using flags_ok.
  rewrite !(run_once_fires_test flags_ok), !(no_block_fires_test flags_ok),
    !truthy_measure_tags.
  rewrite_has (has_selector_defaults tags). repeat split.
Qed.

(** The two normalisations commute. *)
Lemma normalizations_commute (tags : Z) :
  no_block_tags (run_once_tags tags) = run_once_tags (no_block_tags tags).
Proof using flags_ok.
  unfold no_block_tags, run_once_tags, modifier_tags, modifier_mask.
  tag_bits flags_ok.
Qed.

Ltac tests_of st tags :=
  rewrite_has (tests_run_once_tags st tags);
  rewrite_has (tests_no_block_tags st tags);
  rewrite_has (tests_selector_defaults st tags).

(** Evaluate the tests of the frames along a resolution of [tags]. *)
Ltac settle st tags :=
  repeat progress
    (cbv zeta; cbn iota;
     rewrite ?calls_frame, ?calls_frame_no_block_first;
     tests_of st (run_once_tags (no_block_tags tags));
     tests_of st (no_block_tags (run_once_tags tags));
     tests_of st (run_once_tags tags);
     tests_of st (no_block_tags tags);
     tests_of st tags;
     repeat match goal with
            | G : ?x = _ |- context [?x] => rewrite G
            end).

(** [resolve] reaches the canonical tags, in three frames at most. *)
Lemma resolve_canonical (st : state) (tags : Z) :
  resolve 3 st tags = Some (canonical st tags).
Proof using flags_ok.
  unfold canonical. cbn [resolve].
  destruct (run_once_fires st tags) eqn:G1,
    (no_block_fires st tags) eqn:G2,
    (truthy (measure_tags tags)) eqn:G3; settle st tags; reflexivity.
Qed.

Lemma resolve_no_block_first_canonical (st : state) (tags : Z) :
  resolve_no_block_first 3 st tags = Some (canonical st tags).
Proof using flags_ok.
  unfold canonical. cbn [resolve_no_block_first].
  destruct (run_once_fires st tags) eqn:G1,
    (no_block_fires st tags) eqn:G2,
    (truthy (measure_tags tags)) eqn:G3; settle st tags;
    rewrite <- ?normalizations_commute; reflexivity.
Qed.

Lemma fully_resolved_canonical (st : state) (tags : Z) :
  fully_resolved st (canonical st tags) = true.
Proof using flags_ok.
  destruct (exec_trace flags_ok 3 st tags) as (c & Hr & Hfr & _).
  - pose proof (pending_le_2 st tags). lia.
  - rewrite resolve_canonical in Hr. now injection Hr as <-.
Qed.

End Canonical.

Section Runs.

Context {F : exec_flag}.
Hypothesis flags_ok : valid_flags F = true.

Lemma fully_resolved_tests (st : state) (tags : Z) :
  fully_resolved st tags =
  negb (run_once_fires st tags) && negb (no_block_fires st tags)
  && truthy (measure_tags tags).
Proof.
  unfold fully_resolved. rewrite calls_frame.
  now destruct (run_once_fires st tags), (no_block_fires st tags),
    (truthy (measure_tags tags)).
Qed.

(** A frame for fully resolved tags is the skip check followed by the two
    measurements. *)
Lemma frame_resolved (st : state) (tags : Z) :
  fully_resolved st tags = true ->
  exec_frame st tags =
  if is_skipped st then [] else cold_branch tags ++ hot_branch tags.
Proof.
  rewrite fully_resolved_tests. unfold exec_frame.
  fold (run_once_fires st tags) (no_block_fires st tags).
  destruct (run_once_fires st tags), (no_block_fires st tags),
    (truthy (measure_tags tags)); simpl; try discriminate. reflexivity.
Qed.

(** More fuel does not change the result of a call. *)
Lemma exec_fuel_S (fuel : nat) (st : state) (tags : Z) (tr : list event) :
  exec fuel st tags = Some tr -> exec (S fuel) st tags = Some tr.
Proof using flags_ok.
  revert tags tr. induction fuel as [|fuel IH]; intros tags tr; [discriminate|].
  rewrite !(exec_step flags_ok).
  destruct (calls (exec_frame st tags)) as [|t ts]; [trivial|].
  destruct (exec fuel st t) as [inner|] eqn:E; [|discriminate].
  now rewrite (IH t inner E).
Qed.

Lemma exec_fuel_le (fuel fuel' : nat) (st : state) (tags : Z) (tr : list event) :
  (fuel <= fuel')%nat ->
  exec fuel st tags = Some tr -> exec fuel' st tags = Some tr.
Proof using flags_ok.
  induction 1 as [|fuel' _ IH]; [trivial|].
  intros H. apply exec_fuel_S. now apply IH.
Qed.

Lemma resolve_fuel_S (fuel : nat) (st : state) (tags c : Z) :
  resolve fuel st tags = Some c -> resolve (S fuel) st tags = Some c.
Proof.
  revert tags. induction fuel as [|fuel IH]; intros tags; [discriminate|].
  cbn [resolve]. destruct (calls (exec_frame st tags)) as [|t ts]; [trivial|].
  apply IH.
Qed.

Lemma resolve_fuel_le (fuel fuel' : nat) (st : state) (tags c : Z) :
  (fuel <= fuel')%nat ->
  resolve fuel st tags = Some c -> resolve fuel' st tags = Some c.
Proof.
  induction 1 as [|fuel' _ IH]; [trivial|].
  intros H. apply resolve_fuel_S. now apply IH.
Qed.

(** The trace of a call: its re-entries, then the frame of the canonical
    tags. *)
Lemma exec_canonical (st : state) (tags : Z) :
  exec 3 st tags
  = Some (map call (reentries 3 st tags) ++ exec_frame st (canonical st tags))
  /\ (List.length (reentries 3 st tags) <= 2)%nat.
Proof using flags_ok.
  pose proof (pending_le_2 st tags) as Hp.
  destruct (exec_trace flags_ok 3 st tags) as (c & Hr & _ & He & Hlen); [lia|].
  rewrite (resolve_canonical flags_ok) in Hr. injection Hr as <-.
  split; [exact He | lia].
Qed.

(** The tags a frame re-enters with, and what singles each case out. *)
Lemma frame_call_cases (st : state) (tags t : Z) :
  In t (calls (exec_frame st tags)) ->
  (has tags run_once = false /\ t = run_once_tags tags)
  \/ (has tags no_block = false /\ t = no_block_tags tags)
  \/ (has tags cold = false /\ has tags hot = false
      /\ (t = cold .| tags \/ t = cold .| hot .| tags)).
Proof using flags_ok.
  rewrite (exec_frame_tests flags_ok).
  destruct (has tags run_once), (get_run_once st); simpl;
    try (intros [<-|[]]; left; now split).
  all: destruct (has tags no_block), (get_disable_blocking_kernel st); simpl;
    try (intros [<-|[]]; right; left; now split).
  all: destruct (has tags cold), (has tags hot); simpl;
    try (destruct (is_skipped st); [intros []|];
         rewrite calls_measurements; intros []).
  all: destruct (has tags timer || has tags sync);
    intros [<-|[]]; right; right; repeat split; (now left) || (now right).
Qed.

(** Well-formed tags stay well-formed along the re-entries. *)
Lemma is_exec_tag_call (st : state) (tags t : Z) :
  In t (calls (exec_frame st tags)) ->
  is_exec_tag tags = true -> is_exec_tag t = true.
Proof using flags_ok.
  intros Hin. unfold is_exec_tag. rewrite !Z.eqb_eq. intros Hwf.
  destruct (frame_call_cases st tags t Hin)
    as [[_ ->]|[[_ ->]|(_ & _ & [->| ->])]];
    unfold run_once_tags, no_block_tags, modifier_tags, measure_mask,
      modifier_mask in *;
    clear Hin; tag_bits flags_ok.
Qed.

(** C3: every call returns, within three frames and so after at most two
    re-entries, whatever the tags and the three booleans of the state, and
    more fuel gives the same trace.  Each re-entry passes tags with fewer
    normalisations pending: they contain one of [run_once], [no_block],
    [cold], [hot] that the tags of the frame lacked, they keep every
    modifier of the frame, and they are well-formed when the tags of the
    frame are. *)
Theorem exec_terminates (st : state) (tags : Z) :
  (exists tr,
      exec 3 st tags = Some tr
      /\ (count is_call tr <= 2)%nat
      /\ forall fuel, (3 <= fuel)%nat -> exec fuel st tags = Some tr)
  /\ forall t, In t (calls (exec_frame st tags)) ->
       (pending st t < pending st tags)%nat
       /\ (exists f, In f [run_once; no_block; cold; hot]
                     /\ has tags f = false /\ has t f = true)
       /\ (forall f, In f [timer; no_block; sync; run_once] ->
                     has tags f = true -> has t f = true)
       /\ (is_exec_tag tags = true -> is_exec_tag t = true).
Proof using flags_ok.
  split.
  - destruct (exec_canonical st tags) as [He Hlen].
    eexists. split; [exact He|]. split.
    + rewrite count_app, count_is_call_map_call, count_is_call_calls.
      pose proof (fully_resolved_canonical flags_ok st tags) as Hfr.
      unfold fully_resolved in Hfr.
      destruct (calls (exec_frame st (canonical st tags))); [cbn [List.length]; lia|].
      discriminate.
    + intros fuel Hfuel. now apply (exec_fuel_le 3 fuel).
  - intros t Hin. split; [now apply (frame_call flags_ok)|].
    split; [|split; [|now apply (is_exec_tag_call st)]].
    + destruct (frame_call_cases st tags t Hin)
        as [[H ->]|[[H ->]|(Hc & Hh & [->| ->])]].
      * exists run_once. rewrite_has (has_run_once_tags flags_ok tags).
        simpl. tauto.
      * exists no_block. rewrite_has (has_no_block_tags flags_ok tags).
        simpl. tauto.
      * exists cold. rewrite_has (has_cold_default flags_ok tags).
        simpl. tauto.
      * exists cold. rewrite_has (has_cold_hot_default flags_ok tags).
        simpl. tauto.
    + intros f Hf Hhas. simpl in Hf.
      destruct (frame_call_cases st tags t Hin)
        as [[H ->]|[[H ->]|(Hc & Hh & [->| ->])]].
      * destruct Hf as [<-|[<-|[<-|[<-|[]]]]];
          rewrite_has (has_run_once_tags flags_ok tags); trivial.
      * destruct Hf as [<-|[<-|[<-|[<-|[]]]]];
          rewrite_has (has_no_block_tags flags_ok tags); trivial.
      * destruct Hf as [<-|[<-|[<-|[<-|[]]]]];
          rewrite_has (has_cold_default flags_ok tags); trivial.
      * destruct Hf as [<-|[<-|[<-|[<-|[]]]]];
          rewrite_has (has_cold_hot_default flags_ok tags); trivial.
Qed.

End Runs.

(** ** The measurements *)

Section Branches.

Context {F : exec_flag}.
Hypothesis flags_ok : valid_flags F = true.

Lemma accepted_tests (tags : Z) :
  accepted tags
  = negb (has tags hot) || negb (has tags sync) && negb (has tags timer).
Proof.
  unfold accepted, static_asserts. fold (has tags hot).
  destruct (has tags hot); simpl; [|reflexivity].
  fold (has tags sync) (has tags timer). now rewrite andb_true_r.
Qed.

(** The instantiations a body names trip no assertion that the body itself
    does not trip. *)
Lemma accepted_instantiations (tags t : Z) :
  accepted tags = true -> In t (instantiations tags) -> accepted t = true.
Proof using flags_ok.
  unfold instantiations.
  rewrite !accepted_tests, truthy_measure_tags. intros Hacc Hin.
  apply in_app_or in Hin. destruct Hin as [[<-|[<-|[]]]|Hin].
  - rewrite_has (has_run_once_tags flags_ok tags). reflexivity.
  - rewrite_has (has_no_block_tags flags_ok tags). exact Hacc.
  - destruct (has tags cold || has tags hot) eqn:Hsel; simpl in Hin; [easy|].
    assert (Ht : t = selector_defaults tags).
    { unfold selector_defaults.
      destruct (truthy (modifier_tags tags .& (timer .| sync)));
        now destruct Hin as [<-|[]]. }
    subst t.
    rewrite_has (has_selector_defaults flags_ok tags).
    apply orb_false_elim in Hsel. destruct Hsel as [_ ->].
    now destruct (has tags timer), (has tags sync).
Qed.

Lemma compiles_accepted (tags : Z) : compiles tags <-> accepted tags = true.
Proof using flags_ok.
  split.
  - intros H. apply H. constructor.
  - intros Hacc t Hinst. induction Hinst as [|t t' _ IH Hin]; [exact Hacc|].
    now apply (accepted_instantiations t).
Qed.

(** C4: for fully resolved tags with the [hot] selector, the instantiation
    is rejected when [sync] or [timer] is among the tags, with the message
    of the assertion concerned, and so is any call that needs it; without
    [sync] and [timer] both assertions hold, the call compiles, the hot
    branch builds a [measure_hot] over the caller's launcher and invokes
    it, and the frame runs this branch once the skip check is passed. *)
Theorem hot_branch_guard (st : state) (tags : Z) :
  fully_resolved st tags = true ->
  has tags hot = true ->
  (has tags sync || has tags timer = true ->
     accepted tags = false
     /\ ~ compiles tags
     /\ (has tags sync = true -> In hot_sync_message (diagnostics tags))
     /\ (has tags timer = true -> In hot_timer_message (diagnostics tags)))
  /\ (has tags sync = false -> has tags timer = false ->
        static_asserts tags = [(true, hot_sync_message); (true, hot_timer_message)]
        /\ diagnostics tags = []
        /\ compiles tags
        /\ hot_branch tags
           = [construct (measure_hot KL (negb (has tags no_block)));
              invoke (measure_hot KL (negb (has tags no_block)))]
        /\ exec_frame st tags
           = if is_skipped st then [] else cold_branch tags ++ hot_branch tags).
Proof using flags_ok.
  intros Hfr Hhot. split.
  - intros Hbad.
    assert (Hacc : accepted tags = false).
    { rewrite accepted_tests, Hhot. simpl.
      now destruct (has tags sync), (has tags timer). }
    split; [exact Hacc|]. split.
    { rewrite compiles_accepted, Hacc. discriminate. }
    unfold diagnostics, static_asserts.
    fold (has tags hot) (has tags sync) (has tags timer). rewrite Hhot.
    split; intros ->; simpl.
    + now left.
    + destruct (has tags sync); simpl; [right|]; now left.
  - intros Hsync Htimer.
    assert (Hsa : static_asserts tags
                  = [(true, hot_sync_message); (true, hot_timer_message)]).
    { unfold static_asserts.
      fold (has tags hot) (has tags sync) (has tags timer).
      now rewrite Hhot, Hsync, Htimer. }
    repeat split.
    + exact Hsa.
    + unfold diagnostics. now rewrite Hsa.
    + apply compiles_accepted. unfold accepted. now rewrite Hsa.
    + unfold hot_branch. fold (has tags hot) (has tags no_block).
      now rewrite Hhot.
    + now apply frame_resolved.
Qed.

(** C5: for fully resolved tags with the [cold] selector, the cold branch
    builds a [measure_cold] directly over the caller's launcher when
    [timer] is among the tags, and otherwise first builds the timer wrapper
    and then a [measure_cold] over the wrapper; either way it invokes the
    measurement it built exactly once, with [use_blocking_kernel] the
    absence of [no_block].  The frame runs this branch, before the hot one,
    once the skip check is passed. *)
Theorem cold_branch_wrapper (st : state) (tags : Z) :
  fully_resolved st tags = true ->
  has tags cold = true ->
  let use_blocking_kernel := negb (has tags no_block) in
  cold_branch tags
  = (if has tags timer then
       [construct (measure_cold KL use_blocking_kernel);
        invoke (measure_cold KL use_blocking_kernel)]
     else
       [wrap;
        construct (measure_cold wrapper_t use_blocking_kernel);
        invoke (measure_cold wrapper_t use_blocking_kernel)])
  /\ count (invokes is_cold) (cold_branch tags) = 1%nat
  /\ count (fun e => match e with wrap => true | _ => false end) (cold_branch tags)
     = (if has tags timer then 0%nat else 1%nat)
  /\ exec_frame st tags
     = (if is_skipped st then [] else cold_branch tags ++ hot_branch tags)
  /\ (is_skipped st = false ->
      forall fuel,
        exec (S fuel) st tags = Some (cold_branch tags ++ hot_branch tags)
        /\ count (invokes is_cold) (cold_branch tags ++ hot_branch tags) = 1%nat).
Proof using flags_ok.
  intros Hfr Hcold ubk.
  assert (Hcb : cold_branch tags
                = if has tags timer then
                    [construct (measure_cold KL ubk); invoke (measure_cold KL ubk)]
                  else
                    [wrap; construct (measure_cold wrapper_t ubk);
                     invoke (measure_cold wrapper_t ubk)]).
  { unfold cold_branch. fold (has tags cold) (has tags no_block) (has tags timer).
    now rewrite Hcold. }
  assert (Hone : count (invokes is_cold) (cold_branch tags) = 1%nat).
  { rewrite Hcb. now destruct (has tags timer). }
  split; [exact Hcb|]. split; [exact Hone|]. split; [|split].
  - rewrite Hcb. now destruct (has tags timer).
  - now apply frame_resolved.
  - intros Hskip fuel. split.
    + cbn [exec]. rewrite (frame_resolved st tags Hfr), Hskip.
      apply run_no_call, calls_measurements.
    + rewrite count_app, Hone. unfold hot_branch.
      now destruct (truthy (tags .& hot)).
Qed.

End Branches.

(** ** Whole calls *)

Section Calls.

Context {F : exec_flag}.
Hypothesis flags_ok : valid_flags F = true.

Lemma resolve_no_block_first_fuel_S (fuel : nat) (st : state) (tags c : Z) :
  resolve_no_block_first fuel st tags = Some c ->
  resolve_no_block_first (S fuel) st tags = Some c.
Proof.
  revert tags. induction fuel as [|fuel IH]; intros tags; [discriminate|].
  cbn [resolve_no_block_first].
  destruct (calls (exec_frame_no_block_first st tags)) as [|t ts]; [trivial|].
  apply IH.
Qed.

Lemma resolve_no_block_first_fuel_le (fuel fuel' : nat) (st : state) (tags c : Z) :
  (fuel <= fuel')%nat ->
  resolve_no_block_first fuel st tags = Some c ->
  resolve_no_block_first fuel' st tags = Some c.
Proof.
  induction 1 as [|fuel' _ IH]; [trivial|].
  intros H. apply resolve_no_block_first_fuel_S. now apply IH.
Qed.

(** The trace of a call, for any fuel from three on. *)
Lemma exec_run (st : state) (tags : Z) (fuel : nat) :
  (3 <= fuel)%nat ->
  exec fuel st tags
  = Some (map call (reentries 3 st tags)
          ++ (if is_skipped st then []
              else cold_branch (canonical st tags) ++ hot_branch (canonical st tags))).
Proof using flags_ok.
  intros Hfuel. apply (exec_fuel_le flags_ok 3 fuel); [exact Hfuel|].
  destruct (exec_canonical flags_ok st tags) as [-> _].
  now rewrite (frame_resolved st _ (fully_resolved_canonical flags_ok st tags)).
Qed.

(** C6: when the state is skipped, a frame that reaches the skip check
    executes nothing, and the trace of a whole call consists of re-entries
    only: no wrapper and no measurement is built or invoked. *)
Theorem skip_check (st : state) (tags : Z) :
  is_skipped st = true ->
  (forall c, fully_resolved st c = true -> exec_frame st c = [])
  /\ exists tr,
       (forall fuel, (3 <= fuel)%nat -> exec fuel st tags = Some tr)
       /\ forallb is_call tr = true
       /\ count (fun e => negb (is_call e)) tr = 0%nat.
Proof using flags_ok.
  intros Hskip. split.
  - intros c Hc. now rewrite (frame_resolved st c Hc), Hskip.
  - exists (map call (reentries 3 st tags)). split; [|split].
    + intros fuel Hfuel. rewrite (exec_run st tags fuel Hfuel), Hskip.
      now rewrite app_nil_r.
    + rewrite forallb_forall. intros e He. apply in_map_iff in He.
      now destruct He as (t & <- & _).
    + now apply count_map_call.
Qed.

(** C7: when the state asks for a single run and the caller passes [hot]
    alone, the frame re-enters with [cold | run_once]; the tags the call
    resolves to have [cold] as their selector and carry [run_once]; the
    trace contains no construction and no invocation of a hot measurement,
    and, once the skip check is passed, one invocation of a cold
    measurement, built over the timer wrapper. *)
Theorem run_once_precedence (st : state) :
  get_run_once st = true ->
  exec_frame st hot = [call (cold .| run_once)]
  /\ exists c tr,
       resolve 3 st hot = Some c
       /\ (forall fuel, (3 <= fuel)%nat -> exec fuel st hot = Some tr)
       /\ measure_tags c = cold
       /\ has c run_once = true
       /\ has c hot = false
       /\ tr = map call (reentries 3 st hot)
               ++ (if is_skipped st then [] else cold_branch c)
       /\ count (uses is_hot) tr = 0%nat
       /\ (is_skipped st = false ->
           count (invokes is_cold) tr = 1%nat
           /\ cold_branch c
              = [wrap;
                 construct (measure_cold wrapper_t (negb (has c no_block)));
                 invoke (measure_cold wrapper_t (negb (has c no_block)))]).
Proof using flags_ok.
  intros Hst.
  assert (Hro : has hot run_once = false).
  { has_norm flags_ok. reflexivity. }
  assert (Hmod : modifier_tags hot = 0).
  { unfold modifier_tags, modifier_mask. tag_bits flags_ok. }
  split.
  { rewrite (exec_frame_tests flags_ok), Hro, Hst. simpl.
    unfold run_once_tags. now rewrite Hmod. }
  assert (G1 : run_once_fires st hot = true).
  { now rewrite (run_once_fires_test flags_ok), Hro, Hst. }
  set (t1 := run_once_tags hot).
  set (c := if no_block_fires st t1 then no_block_tags t1 else t1).
  assert (Hc : canonical st hot = c).
  { unfold canonical. rewrite G1. fold t1. fold c.
    assert (Hm : truthy (measure_tags c) = true).
    { subst c t1. destruct (no_block_fires st (run_once_tags hot)).
      - rewrite_has (tests_no_block_tags flags_ok st (run_once_tags hot)).
        now rewrite_has (tests_run_once_tags flags_ok st hot).
      - now rewrite_has (tests_run_once_tags flags_ok st hot). }
    now rewrite Hm. }
  assert (Hhas : has c timer = false /\ has c run_once = true
                 /\ has c cold = true /\ has c hot = false).
  { subst c t1. destruct (no_block_fires st (run_once_tags hot)).
    - rewrite_has (has_no_block_tags flags_ok (run_once_tags hot)).
      rewrite_has (has_run_once_tags flags_ok hot).
      repeat split. has_norm flags_ok. reflexivity.
    - rewrite_has (has_run_once_tags flags_ok hot).
      repeat split. has_norm flags_ok. reflexivity. }
  destruct Hhas as (Htimer & Hrun & Hcold & Hhot).
  assert (Hcb : cold_branch c
                = [wrap; construct (measure_cold wrapper_t (negb (has c no_block)));
                   invoke (measure_cold wrapper_t (negb (has c no_block)))]).
  { unfold cold_branch. fold (has c cold) (has c timer) (has c no_block).
    now rewrite Hcold, Htimer. }
  assert (Hhb : hot_branch c = []).
  { unfold hot_branch. fold (has c hot). now rewrite Hhot. }
  exists c.
  exists (map call (reentries 3 st hot) ++ (if is_skipped st then [] else cold_branch c)).
  split; [rewrite <- Hc; apply (resolve_canonical flags_ok)|].
  split.
  { intros fuel Hfuel. rewrite (exec_run st hot fuel Hfuel), Hc, Hhb.
    now rewrite app_nil_r. }
  split.
  { subst c t1. unfold measure_tags, measure_mask, no_block_tags, run_once_tags,
      modifier_tags, modifier_mask.
    destruct (no_block_fires st _); clear - flags_ok; tag_bits flags_ok. }
  split; [exact Hrun|]. split; [exact Hhot|]. split; [reflexivity|]. split.
  - rewrite count_app, count_map_call by reflexivity.
    destruct (is_skipped st); [reflexivity|]. now rewrite Hcb.
  - intros Hskip. split; [|exact Hcb].
    rewrite count_app, count_map_call, Hskip by reflexivity. now rewrite Hcb.
Qed.

(** C9: the tags a call resolves to are a function of the state and of
    the caller's tags: every run with enough fuel reaches them, and its
    trace ends with the measurements they select.  The resolution that
    tests no-block before run-once reaches the same tags, because the two
    normalisations commute; resolved tags resolve to themselves. *)
Theorem resolution_canonical (st : state) (tags : Z) :
  exists c,
    (forall fuel, (3 <= fuel)%nat -> resolve fuel st tags = Some c)
    /\ (forall fuel, (3 <= fuel)%nat ->
          resolve_no_block_first fuel st tags = Some c)
    /\ no_block_tags (run_once_tags tags) = run_once_tags (no_block_tags tags)
    /\ fully_resolved st c = true
    /\ resolve 3 st c = Some c
    /\ (forall fuel, (3 <= fuel)%nat ->
          exec fuel st tags
          = Some (map call (reentries 3 st tags)
                  ++ (if is_skipped st then []
                      else cold_branch c ++ hot_branch c))).
Proof using flags_ok.
  exists (canonical st tags).
  pose proof (fully_resolved_canonical flags_ok st tags) as Hfr.
  repeat split.
  - intros fuel Hfuel. apply (resolve_fuel_le 3 fuel); [exact Hfuel|].
    apply (resolve_canonical flags_ok).
  - intros fuel Hfuel.
    apply (resolve_no_block_first_fuel_le 3 fuel); [exact Hfuel|].
    apply (resolve_no_block_first_canonical flags_ok).
  - apply (normalizations_commute flags_ok).
  - exact Hfr.
  - cbn [resolve]. unfold fully_resolved in Hfr.
    now destruct (calls (exec_frame st (canonical st tags))).
  - intros fuel Hfuel. now apply exec_run.
Qed.

(** C10: when the caller's tags already contain [run_once] and [hot] and
    the state asks for a single run, the run-once test does not fire; the
    call resolves to the caller's tags, with [no_block] added when the
    blocking kernel is disabled, so the selector is the caller's and [hot]
    is kept; the hot branch for these tags builds and invokes a
    [measure_hot], and the trace of the call contains exactly one such
    invocation once the skip check is passed.  The call compiles when
    neither [sync] nor [timer] is among the tags. *)
Theorem explicit_run_once_hot (st : state) (tags : Z) :
  has tags run_once = true ->
  has tags hot = true ->
  get_run_once st = true ->
  run_once_fires st tags = false
  /\ (exists c tr,
        resolve 3 st tags = Some c
        /\ (forall fuel, (3 <= fuel)%nat -> exec fuel st tags = Some tr)
        /\ c = (if no_block_fires st tags then tags .| no_block else tags)
        /\ measure_tags c = measure_tags tags
        /\ has c hot = true
        /\ hot_branch c
           = [construct (measure_hot KL (negb (has c no_block)));
              invoke (measure_hot KL (negb (has c no_block)))]
        /\ tr = map call (reentries 3 st tags)
                ++ (if is_skipped st then [] else cold_branch c ++ hot_branch c)
        /\ (is_skipped st = false -> count (invokes is_hot) tr = 1%nat))
  /\ (has tags sync = false -> has tags timer = false -> compiles tags).
Proof using flags_ok.
  intros Hro Hhot Hst.
  assert (G1 : run_once_fires st tags = false).
  { now rewrite (run_once_fires_test flags_ok), Hro. }
  split; [exact G1|]. split.
  - set (c := if no_block_fires st tags then no_block_tags tags else tags).
    assert (Hc : canonical st tags = c).
    { unfold canonical. rewrite G1. fold c.
      assert (Hm : truthy (measure_tags c) = true).
      { subst c. destruct (no_block_fires st tags).
        - rewrite_has (tests_no_block_tags flags_ok st tags).
          now rewrite truthy_measure_tags, Hhot, orb_true_r.
        - now rewrite truthy_measure_tags, Hhot, orb_true_r. }
      now rewrite Hm. }
    assert (Hch : has c hot = true).
    { subst c. destruct (no_block_fires st tags); [|exact Hhot].
      now rewrite_has (has_no_block_tags flags_ok tags). }
    assert (Hhb : hot_branch c
                  = [construct (measure_hot KL (negb (has c no_block)));
                     invoke (measure_hot KL (negb (has c no_block)))]).
    { unfold hot_branch. fold (has c hot) (has c no_block). now rewrite Hch. }
    exists c.
    exists (map call (reentries 3 st tags)
            ++ (if is_skipped st then [] else cold_branch c ++ hot_branch c)).
    split; [rewrite <- Hc; apply (resolve_canonical flags_ok)|].
    split; [intros fuel Hfuel; now rewrite (exec_run st tags fuel Hfuel), Hc|].
    split; [reflexivity|].
    split.
    { subst c. destruct (no_block_fires st tags); [|reflexivity].
      unfold measure_tags, measure_mask, no_block_tags.
      clear - flags_ok. tag_bits flags_ok. }
    split; [exact Hch|]. split; [exact Hhb|]. split; [reflexivity|].
    intros Hskip. rewrite Hskip, !count_app, count_map_call, Hhb by reflexivity.
    unfold cold_branch.
    now destruct (truthy (c .& cold)), (truthy (c .& timer)).
  - intros Hsync Htimer. apply (compiles_accepted flags_ok).
    now rewrite accepted_tests, Hsync, Htimer, orb_true_r.
Qed.

End Calls.

(** ** The flags of the upstream header *)

Section Upstream.

#[local] Existing Instance nvbench_flags.

Lemma nvbench_flags_valid : valid_flags nvbench_flags = true.
Proof. reflexivity. Qed.

Lemma run_once_normalization_witness :
  valid_flags nvbench_flags = true
  /\ has hot run_once = false
  /\ get_run_once run_once_state = true
  /\ exec_frame run_once_state hot = [call (cold .| run_once)]
  /\ measure_tags (modifier_tags hot .| cold .| run_once) = cold.
Proof.
  do 3 (split; [reflexivity|]).
  pose proof (run_once_normalization nvbench_flags_valid run_once_state hot) as H.
  destruct (H eq_refl eq_refl) as (Hframe & Hsel & _).
  split; [exact Hframe | exact Hsel].
Defined.

Lemma no_block_normalization_witness :
  valid_flags nvbench_flags = true
  /\ has cold no_block = false
  /\ get_disable_blocking_kernel no_block_state = true
  /\ run_once_fires no_block_state cold = false
  /\ exec_frame no_block_state cold = [call (cold .| no_block)].
Proof.
  do 4 (split; [reflexivity|]).
  pose proof (no_block_normalization nvbench_flags_valid no_block_state cold) as H.
  exact (proj1 (H eq_refl eq_refl eq_refl)).
Defined.

Lemma selector_defaulting_witness :
  valid_flags nvbench_flags = true
  /\ measure_tags timer = 0
  /\ run_once_fires plain_state timer = false
  /\ no_block_fires plain_state timer = false
  /\ exec_frame plain_state timer = [call (cold .| timer)]
  /\ measure_tags (cold .| timer) = cold.
Proof.
  do 4 (split; [reflexivity|]).
  pose proof (selector_defaulting nvbench_flags_valid plain_state timer) as H.
  destruct (H eq_refl eq_refl eq_refl) as (Hframe & Hsel & _).
  split; [exact Hframe | exact Hsel].
Defined.

(** C2, as stated, fails where a normalisation comes first.  With no tags
    at all and a state that asks for a single run, the selector is empty
    and neither [timer] nor [sync] is present, yet the frame re-enters with
    [cold | run_once], not with [cold | hot], and the call ends without a
    hot measurement; with [timer] alone it re-enters with
    [timer | cold | run_once], not with [cold | timer]. *)
Lemma selector_defaulting_counterexample :
  measure_tags 0 = 0
  /\ truthy (modifier_tags 0 .& (timer .| sync)) = false
  /\ exec_frame run_once_state 0 = [call (cold .| run_once)]
  /\ exec_frame run_once_state 0 <> [call (cold .| hot .| 0)]
  /\ exec 3 run_once_state 0
     = Some [call (cold .| run_once); wrap;
             construct (measure_cold wrapper_t true);
             invoke (measure_cold wrapper_t true)]
  /\ measure_tags timer = 0
  /\ truthy (modifier_tags timer .& (timer .| sync)) = true
  /\ exec_frame run_once_state timer = [call (timer .| cold .| run_once)]
  /\ exec_frame run_once_state timer <> [call (cold .| timer)].
Proof.
  repeat split; try reflexivity; discriminate.
Qed.

Lemma exec_terminates_witness :
  valid_flags nvbench_flags = true
  /\ exists tr,
       exec 3 profiling_state 0 = Some tr
       /\ (count is_call tr <= 2)%nat
       /\ forall fuel, (3 <= fuel)%nat -> exec fuel profiling_state 0 = Some tr.
Proof.
  split; [reflexivity|].
  exact (proj1 (exec_terminates nvbench_flags_valid profiling_state 0)).
Defined.

Lemma hot_branch_guard_witness :
  valid_flags nvbench_flags = true
  /\ fully_resolved plain_state hot = true
  /\ has hot hot = true
  /\ compiles hot
  /\ hot_branch hot
     = [construct (measure_hot KL true); invoke (measure_hot KL true)].
Proof.
  pose proof (hot_branch_guard nvbench_flags_valid plain_state hot) as H.
  destruct (H eq_refl eq_refl) as [_ Hgood].
  destruct (Hgood eq_refl eq_refl) as (_ & _ & Hcomp & Hhb & _).
  do 3 (split; [reflexivity|]).
  split; [exact Hcomp | exact Hhb].
Defined.

Lemma cold_branch_wrapper_witness :
  valid_flags nvbench_flags = true
  /\ fully_resolved plain_state (cold .| timer) = true
  /\ has (cold .| timer) cold = true
  /\ cold_branch (cold .| timer)
     = [construct (measure_cold KL true); invoke (measure_cold KL true)]
  /\ cold_branch cold
     = [wrap; construct (measure_cold wrapper_t true);
        invoke (measure_cold wrapper_t true)].
Proof.
  do 3 (split; [reflexivity|]).
  pose proof (cold_branch_wrapper nvbench_flags_valid plain_state (cold .| timer))
    as Htimer.
  pose proof (cold_branch_wrapper nvbench_flags_valid plain_state cold) as Hplain.
  split.
  - exact (proj1 (Htimer eq_refl eq_refl)).
  - exact (proj1 (Hplain eq_refl eq_refl)).
Defined.

Lemma skip_check_witness :
  valid_flags nvbench_flags = true
  /\ is_skipped skipped_state = true
  /\ exists tr,
       (forall fuel, (3 <= fuel)%nat -> exec fuel skipped_state 0 = Some tr)
       /\ forallb is_call tr = true
       /\ count (fun e => negb (is_call e)) tr = 0%nat.
Proof.
  do 2 (split; [reflexivity|]).
  pose proof (skip_check nvbench_flags_valid skipped_state 0) as H.
  exact (proj2 (H eq_refl)).
Defined.

Lemma run_once_precedence_witness :
  valid_flags nvbench_flags = true
  /\ get_run_once profiling_state = true
  /\ exec_frame profiling_state hot = [call (cold .| run_once)].
Proof.
  do 2 (split; [reflexivity|]).
  pose proof (run_once_precedence nvbench_flags_valid profiling_state) as H.
  exact (proj1 (H eq_refl)).
Defined.

Lemma resolution_canonical_witness :
  valid_flags nvbench_flags = true
  /\ exists c,
       resolve 3 profiling_state sync = Some c
       /\ resolve_no_block_first 3 profiling_state sync = Some c
       /\ fully_resolved profiling_state c = true.
Proof.
  split; [reflexivity|].
  destruct (resolution_canonical nvbench_flags_valid profiling_state sync)
    as (c & Hr & Hs & _ & Hfr & _).
  exists c. split; [|split].
  - apply Hr. constructor.
  - apply Hs. constructor.
  - exact Hfr.
Defined.

Lemma explicit_run_once_hot_witness :
  valid_flags nvbench_flags = true
  /\ has (run_once .| hot) run_once = true
  /\ has (run_once .| hot) hot = true
  /\ get_run_once run_once_state = true
  /\ run_once_fires run_once_state (run_once .| hot) = false
  /\ compiles (run_once .| hot).
Proof.
  pose proof (explicit_run_once_hot nvbench_flags_valid run_once_state
                (run_once .| hot)) as H.
  destruct (H eq_refl eq_refl eq_refl) as (Hro & _ & Hcomp).
  do 4 (split; [reflexivity|]).
  split; [exact Hro | exact (Hcomp eq_refl eq_refl)].
Defined.

End Upstream.

(** ** The resolved tags in terms of the caller's *)

Section Resolved.

Context {F : exec_flag}.
Hypothesis flags_ok : valid_flags F = true.

(** Decide a goal made of tests of [tags] and of queries on [st]. *)
Ltac by_tests st tags :=
  repeat match goal with
         | G : _ = true |- _ => revert G
         | G : _ = false |- _ => revert G
         end;
  destruct (has tags run_once), (get_run_once st), (has tags no_block),
    (get_disable_blocking_kernel st), (has tags cold), (has tags hot),
    (has tags timer), (has tags sync);
  simpl; repeat first [split | intro]; try easy.

(** Every flag of the canonical tags, by the caller's tags and the state. *)
Lemma has_canonical (st : state) (tags : Z) :
  let fires := negb (has tags run_once) && get_run_once st in
  has (canonical st tags) timer = has tags timer
  /\ has (canonical st tags) no_block
     = has tags no_block || get_disable_blocking_kernel st
  /\ has (canonical st tags) sync = has tags sync
  /\ has (canonical st tags) run_once = has tags run_once || get_run_once st
  /\ has (canonical st tags) cold = fires || has tags cold || negb (has tags hot)
  /\ has (canonical st tags) hot
     = negb fires
       && (has tags hot
           || negb (has tags cold) && negb (has tags timer || has tags sync)).
Proof using flags_ok.
  unfold canonical. cbv zeta.
  rewrite (run_once_fires_test flags_ok).
  destruct (negb (has tags run_once) && get_run_once st) eqn:G1.
  - rewrite (no_block_fires_test flags_ok).
    rewrite_has (has_run_once_tags flags_ok tags).
    destruct (negb (has tags no_block) && get_disable_blocking_kernel st) eqn:G2.
    + rewrite truthy_measure_tags.
      rewrite_has (has_no_block_tags flags_ok (run_once_tags tags)).
      rewrite_has (has_run_once_tags flags_ok tags). cbn [orb].
      rewrite_has (has_no_block_tags flags_ok (run_once_tags tags)).
      rewrite_has (has_run_once_tags flags_ok tags).
      by_tests st tags.
    + rewrite truthy_measure_tags.
      rewrite_has (has_run_once_tags flags_ok tags). cbn [orb].
      rewrite_has (has_run_once_tags flags_ok tags).
      by_tests st tags.
  - rewrite (no_block_fires_test flags_ok).
    destruct (negb (has tags no_block) && get_disable_blocking_kernel st) eqn:G2.
    + rewrite truthy_measure_tags.
      rewrite_has (has_no_block_tags flags_ok tags).
      destruct (has tags cold || has tags hot) eqn:G3.
      * rewrite_has (has_no_block_tags flags_ok tags). by_tests st tags.
      * rewrite_has (has_selector_defaults flags_ok (no_block_tags tags)).
        rewrite_has (has_no_block_tags flags_ok tags). by_tests st tags.
    + rewrite truthy_measure_tags.
      destruct (has tags cold || has tags hot) eqn:G3.
      * by_tests st tags.
      * rewrite_has (has_selector_defaults flags_ok tags). by_tests st tags.
Qed.

Ltac rewrite_canonical st tags :=
  let H := fresh in
  pose proof (has_canonical st tags) as H; cbv zeta in H; rewrite_conj H.

(** X1: the tags a call resolves to, flag by flag.  [timer] and [sync] are
    the caller's; [run_once] and [no_block] are the caller's or the
    state's; [cold] is selected when the run-once test fires, when the
    caller selected it, or when the caller did not select [hot]; [hot] is
    selected when the run-once test does not fire and the caller selected
    it, or gave no selector and neither [timer] nor [sync].  There is
    always a selector, and [hot] is never added next to [timer] or [sync]. *)
Theorem resolved_flags (st : state) (tags : Z) :
  let fires := negb (has tags run_once) && get_run_once st in
  exists c,
    (forall fuel, (3 <= fuel)%nat -> resolve fuel st tags = Some c)
    /\ has c timer = has tags timer
    /\ has c sync = has tags sync
    /\ has c run_once = has tags run_once || get_run_once st
    /\ has c no_block = has tags no_block || get_disable_blocking_kernel st
    /\ has c cold = fires || has tags cold || negb (has tags hot)
    /\ has c hot
       = negb fires
         && (has tags hot
             || negb (has tags cold) && negb (has tags timer || has tags sync))
    /\ has c cold || has c hot = true
    /\ (has c hot = true -> has tags hot = false ->
        has c timer = false /\ has c sync = false).
Proof using flags_ok.
  intros fires. exists (canonical st tags). split.
  { intros fuel Hfuel. apply (resolve_fuel_le 3 fuel); [exact Hfuel|].
    apply (resolve_canonical flags_ok). }
  subst fires. rewrite_canonical st tags. by_tests st tags.
Qed.

Lemma branches_tests (c : Z) :
  cold_branch c ++ hot_branch c
  = (if has c cold then
       if has c timer then
         [construct (measure_cold KL (negb (has c no_block)));
          invoke (measure_cold KL (negb (has c no_block)))]
       else
         [wrap;
          construct (measure_cold wrapper_t (negb (has c no_block)));
          invoke (measure_cold wrapper_t (negb (has c no_block)))]
     else [])
    ++ (if has c hot then
          [construct (measure_hot KL (negb (has c no_block)));
           invoke (measure_hot KL (negb (has c no_block)))]
        else []).
Proof.
  reflexivity.
Qed.

(** X2: which measurements a call runs.  Unless the state is skipped, the
    cold measurement is invoked once when the run-once test fires, when
    the caller selected [cold], or when the caller did not select [hot],
    and the hot measurement is invoked once when the run-once test does
    not fire and the caller selected [hot], or gave no selector and
    neither [timer] nor [sync]; nothing else is invoked, so an unskipped
    call makes one or two invocations. *)
Theorem measurements_run (st : state) (tags : Z) :
  let fires := negb (has tags run_once) && get_run_once st in
  let runs_cold := fires || has tags cold || negb (has tags hot) in
  let runs_hot :=
    negb fires
    && (has tags hot
        || negb (has tags cold) && negb (has tags timer || has tags sync)) in
  exists tr,
    (forall fuel, (3 <= fuel)%nat -> exec fuel st tags = Some tr)
    /\ count (invokes is_cold) tr
       = (if negb (is_skipped st) && runs_cold then 1%nat else 0%nat)
    /\ count (invokes is_hot) tr
       = (if negb (is_skipped st) && runs_hot then 1%nat else 0%nat)
    /\ (is_skipped st = false ->
        (1 <= count (invokes (fun _ => true)) tr <= 2)%nat).
Proof using flags_ok.
  intros fires runs_cold runs_hot. subst fires runs_cold runs_hot.
  eexists. split; [|split; [|split]].
  - intros fuel Hfuel. apply (exec_run flags_ok st tags fuel Hfuel).
  - rewrite count_app, count_map_call, branches_tests by reflexivity.
    rewrite_canonical st tags.
    destruct (is_skipped st); [reflexivity|]. by_tests st tags.
  - rewrite count_app, count_map_call, branches_tests by reflexivity.
    rewrite_canonical st tags.
    destruct (is_skipped st); [reflexivity|]. by_tests st tags.
  - intros ->.
    rewrite count_app, count_map_call, branches_tests by reflexivity.
    rewrite_canonical st tags. by_tests st tags; cbn; lia.
Qed.

End Resolved.

(** ** The measurements of a whole call *)

Lemma measurements_map_call (ts : list Z) (ms : list event) :
  forallb (fun e => negb (is_call e)) ms = true ->
  measurements (map call ts ++ ms) = ms.
Proof.
  intros Hms. unfold measurements. rewrite filter_app.
  replace (filter (fun e => negb (is_call e)) (map call ts)) with (@nil event).
  - simpl. induction ms as [|e ms IH]; [reflexivity|].
    simpl in Hms |- *. apply andb_prop in Hms. destruct Hms as [-> Hms].
    now rewrite (IH Hms).
  - induction ts as [|t ts IH]; [reflexivity | exact IH].
Qed.

Lemma forall_measurement (P : measure_t -> Prop) (tr : list event) :
  Forall (fun e => forall m, measurement e = Some m -> P m) tr ->
  forall e m, In e tr -> measurement e = Some m -> P m.
Proof.
  intros HF e m Hin. rewrite Forall_forall in HF. exact (HF e Hin m).
Qed.

Section Traces.

Context {F : exec_flag}.
Hypothesis flags_ok : valid_flags F = true.

Ltac rewrite_canonical st tags :=
  let H := fresh in
  pose proof (has_canonical flags_ok st tags) as H; cbv zeta in H;
  rewrite_conj H.

Ltac cases st tags :=
  destruct (has tags run_once), (get_run_once st), (has tags no_block),
    (get_disable_blocking_kernel st), (has tags cold), (has tags hot),
    (has tags timer), (has tags sync);
  simpl.

(** The trace of a call, with the tests of its measurements on the
    caller's tags and the state. *)
Lemma exec_measurements (st : state) (tags : Z) :
  exists ms,
    (forall fuel, (3 <= fuel)%nat ->
       exec fuel st tags = Some (map call (reentries 3 st tags) ++ ms))
    /\ ms = (if is_skipped st then []
             else cold_branch (canonical st tags) ++ hot_branch (canonical st tags))
    /\ forallb (fun e => negb (is_call e)) ms = true.
Proof using flags_ok.
  eexists. split; [|split; [reflexivity|]].
  - intros fuel Hfuel. apply (exec_run flags_ok st tags fuel Hfuel).
  - destruct (is_skipped st); [reflexivity|]. rewrite branches_tests.
    now destruct (has (canonical st tags) cold), (has (canonical st tags) timer),
      (has (canonical st tags) hot).
Qed.

(** X3: every measurement a call builds or invokes uses the blocking
    kernel exactly when the caller did not pass [no_block] and the state
    does not have the blocking kernel disabled. *)
Theorem blocking_kernel_use (st : state) (tags : Z) :
  exists tr,
    (forall fuel, (3 <= fuel)%nat -> exec fuel st tags = Some tr)
    /\ forall e m,
         In e tr -> measurement e = Some m ->
         use_blocking_kernel_of m
         = negb (has tags no_block || get_disable_blocking_kernel st).
Proof using flags_ok.
  destruct (exec_measurements st tags) as (ms & Hexec & -> & _).
  eexists. split; [exact Hexec|].
  apply forall_measurement, Forall_app. split.
  - apply Forall_forall. intros e He m. apply in_map_iff in He.
    now destruct He as (t & <- & _).
  - destruct (is_skipped st); [constructor|]. rewrite branches_tests.
    rewrite_canonical st tags.
    cases st tags; repeat constructor; intros m [= <-]; reflexivity.
Qed.

(** X4: a hot measurement is always built over the caller's launcher; a
    cold measurement is built over the caller's launcher when the caller
    passed [timer] and over the timer wrapper otherwise; and a wrapper is
    built once for each cold invocation without [timer], and never
    otherwise. *)
Theorem launcher_use (st : state) (tags : Z) :
  exists tr,
    (forall fuel, (3 <= fuel)%nat -> exec fuel st tags = Some tr)
    /\ (forall e m,
          In e tr -> measurement e = Some m ->
          launcher_of m
          = if is_cold m && negb (has tags timer) then wrapper_t else KL)
    /\ count (fun e => match e with wrap => true | _ => false end) tr
       = (if has tags timer then 0%nat else count (invokes is_cold) tr).
Proof using flags_ok.
  destruct (exec_measurements st tags) as (ms & Hexec & -> & _).
  eexists. split; [exact Hexec|]. split.
  - apply forall_measurement, Forall_app. split.
    + apply Forall_forall. intros e He m. apply in_map_iff in He.
      now destruct He as (t & <- & _).
    + destruct (is_skipped st); [constructor|]. rewrite branches_tests.
      rewrite_canonical st tags.
      cases st tags; repeat constructor; intros m [= <-]; reflexivity.
  - rewrite !count_app, !count_map_call by reflexivity.
    destruct (is_skipped st); [now destruct (has tags timer)|].
    rewrite branches_tests. rewrite_canonical st tags.
    cases st tags; reflexivity.
Qed.

(** X5: the trace of a call is its re-entries, two at most, followed by
    its measurements, and the measurements come in the order of the body:
    wrapper, cold construction, cold invocation, hot construction, hot
    invocation, each at most once.  No re-entry follows a measurement and
    no cold step follows a hot one. *)
Theorem trace_order (st : state) (tags : Z) :
  exists tr rs,
    (forall fuel, (3 <= fuel)%nat -> exec fuel st tags = Some tr)
    /\ tr = map call rs ++ measurements tr
    /\ (List.length rs <= 2)%nat
    /\ StronglySorted (fun a b => (phase a < phase b)%nat) (measurements tr).
Proof using flags_ok.
  destruct (exec_measurements st tags) as (ms & Hexec & Hms & Hnc).
  exists (map call (reentries 3 st tags) ++ ms), (reentries 3 st tags).
  rewrite (measurements_map_call _ ms Hnc).
  split; [exact Hexec|]. split; [reflexivity|]. split.
  - apply (exec_canonical flags_ok).
  - subst ms. destruct (is_skipped st); [constructor|]. rewrite branches_tests.
    destruct (has (canonical st tags) cold), (has (canonical st tags) timer),
      (has (canonical st tags) hot);
      repeat first [ apply SSorted_nil | apply SSorted_cons
                   | apply Forall_nil | apply Forall_cons | (cbn; lia) ].
Qed.

(** X10: whatever selector the caller gave, when the tags lack [run_once]
    and the state asks for a single run, the call resolves to tags whose
    selector is [cold] alone and which carry [run_once]; its trace has no
    hot measurement, and, unless the state is skipped, exactly one
    invocation, of a cold measurement. *)
Theorem single_run (st : state) (tags : Z) :
  has tags run_once = false ->
  get_run_once st = true ->
  exists c tr,
    (forall fuel, (3 <= fuel)%nat -> resolve fuel st tags = Some c)
    /\ (forall fuel, (3 <= fuel)%nat -> exec fuel st tags = Some tr)
    /\ measure_tags c = cold
    /\ has c run_once = true
    /\ count (uses is_hot) tr = 0%nat
    /\ (is_skipped st = false ->
        count (invokes is_cold) tr = 1%nat
        /\ count (invokes (fun _ => true)) tr = 1%nat).
Proof using flags_ok.
  intros Hro Hst.
  destruct (exec_measurements st tags) as (ms & Hexec & -> & _).
  exists (canonical st tags). eexists.
  split; [|split; [exact Hexec|]].
  { intros fuel Hfuel. apply (resolve_fuel_le 3 fuel); [exact Hfuel|].
    apply (resolve_canonical flags_ok). }
  split.
  { unfold canonical. cbv zeta.
    rewrite (run_once_fires_test flags_ok), Hro, Hst. cbn [negb andb].
    destruct (no_block_fires st (run_once_tags tags));
      rewrite_has (tests_no_block_tags flags_ok st (run_once_tags tags));
      rewrite_has (tests_run_once_tags flags_ok st tags);
      unfold measure_tags, measure_mask, no_block_tags, run_once_tags,
        modifier_tags, modifier_mask;
      clear - flags_ok; tag_bits flags_ok. }
  split.
  { rewrite_canonical st tags. now rewrite Hro, Hst. }
  split.
  - rewrite count_app, count_map_call by reflexivity.
    destruct (is_skipped st); [reflexivity|]. rewrite branches_tests.
    rewrite_canonical st tags. rewrite Hro, Hst. cases st tags; reflexivity.
  - intros Hskip. rewrite !count_app, !count_map_call by reflexivity.
    rewrite Hskip, branches_tests. rewrite_canonical st tags.
    rewrite Hro, Hst. cases st tags; split; reflexivity.
Qed.

Lemma pending_call_S (st : state) (tags t : Z) :
  In t (calls (exec_frame st tags)) -> pending st tags = S (pending st t).
Proof using flags_ok.
  rewrite !(pending_tests flags_ok), (exec_frame_tests flags_ok).
  destruct (negb (has tags run_once) && get_run_once st) eqn:G1.
  { intros [<-|[]].
    rewrite_has (has_run_once_tags flags_ok tags). simpl.
    destruct (negb (has tags no_block) && get_disable_blocking_kernel st);
      simpl; lia. }
  destruct (negb (has tags no_block) && get_disable_blocking_kernel st) eqn:G2.
  { intros [<-|[]].
    rewrite_has (has_no_block_tags flags_ok tags). rewrite G1. simpl.
    destruct (has tags cold || has tags hot); simpl; lia. }
  destruct (has tags cold || has tags hot) eqn:G3; simpl.
  { destruct (is_skipped st); [intros []|].
    rewrite calls_measurements. intros []. }
  destruct (has tags timer || has tags sync) eqn:G4.
  - intros [<-|[]].
    rewrite_has (has_cold_default flags_ok tags). rewrite G1, G2. simpl. lia.
  - intros [<-|[]].
    rewrite_has (has_cold_hot_default flags_ok tags). rewrite G1, G2. simpl. lia.
Qed.

Lemma reentries_length (fuel : nat) (st : state) (tags : Z) :
  (pending st tags < fuel)%nat ->
  List.length (reentries fuel st tags) = pending st tags.
Proof using flags_ok.
  revert tags. induction fuel as [|fuel IH]; intros tags Hp; [lia|].
  cbn [reentries].
  destruct (calls (exec_frame st tags)) as [|t ts] eqn:E.
  - rewrite calls_frame in E. unfold pending.
    now destruct (run_once_fires st tags), (no_block_fires st tags),
      (truthy (measure_tags tags)).
  - assert (Hin : In t (calls (exec_frame st tags))) by (rewrite E; now left).
    rewrite (pending_call_S st tags t Hin) in Hp |- *.
    cbn [List.length]. rewrite IH; [reflexivity | lia].
Qed.

(** X11: the number of re-entries of a call.  A call re-enters once for
    the run-once test when it fires, once for the no-block test when it
    fires, and once for the selector defaulting when the caller gave no
    selector and the run-once test does not fire; a call none of which
    applies to runs in a single frame. *)
Theorem reentry_count (st : state) (tags : Z) :
  exists tr,
    (forall fuel, (3 <= fuel)%nat -> exec fuel st tags = Some tr)
    /\ count is_call tr
       = ((if run_once_fires st tags then 1 else 0)
          + (if no_block_fires st tags then 1 else 0)
          + (if negb (run_once_fires st tags) && negb (truthy (measure_tags tags))
             then 1 else 0))%nat
    /\ (count is_call tr = 0%nat <-> fully_resolved st tags = true).
Proof using flags_ok.
  destruct (exec_measurements st tags) as (ms & Hexec & Hms & Hnc).
  eexists. split; [exact Hexec|].
  assert (Hcount : count is_call (map call (reentries 3 st tags) ++ ms)
                   = pending st tags).
  { rewrite count_app, count_is_call_map_call.
    replace (count is_call ms) with 0%nat.
    - rewrite reentries_length; [lia|]. pose proof (pending_le_2 st tags). lia.
    - unfold count. clear Hms Hexec.
      induction ms as [|e ms IH]; [reflexivity|].
      simpl in Hnc. apply andb_prop in Hnc. destruct Hnc as [He Hnc].
      simpl. destruct (is_call e); [discriminate|]. now apply IH. }
  rewrite Hcount, fully_resolved_tests. unfold pending.
  destruct (run_once_fires st tags), (no_block_fires st tags),
    (truthy (measure_tags tags)); simpl; (split; [lia|]);
    split; intros H; try discriminate H; try lia; reflexivity.
Qed.

End Traces.

(** ** The specialisations of a call *)

Section Instantiation.

Context {F : exec_flag}.
Hypothesis flags_ok : valid_flags F = true.

Lemma run_once_tags_idem (tags : Z) :
  run_once_tags (run_once_tags tags) = run_once_tags tags.
Proof using flags_ok.
  unfold run_once_tags, modifier_tags, modifier_mask. tag_bits flags_ok.
Qed.

Lemma no_block_tags_idem (tags : Z) :
  no_block_tags (no_block_tags tags) = no_block_tags tags.
Proof using flags_ok.
  unfold no_block_tags. tag_bits flags_ok.
Qed.

Lemma run_once_tags_selector_defaults (tags : Z) :
  run_once_tags (selector_defaults tags) = run_once_tags tags.
Proof using flags_ok.
  unfold selector_defaults.
  destruct (truthy (modifier_tags tags .& (timer .| sync)));
    unfold run_once_tags, modifier_tags, modifier_mask; tag_bits flags_ok.
Qed.

Lemma selector_defaults_no_block_tags (tags : Z) :
  selector_defaults (no_block_tags tags) = no_block_tags (selector_defaults tags).
Proof using flags_ok.
  unfold selector_defaults.
  replace (truthy (modifier_tags (no_block_tags tags) .& (timer .| sync)))
    with (truthy (modifier_tags tags .& (timer .| sync)))
    by (has_norm flags_ok; reflexivity).
  destruct (truthy (modifier_tags tags .& (timer .| sync)));
    unfold no_block_tags; tag_bits flags_ok.
Qed.

Lemma instantiations_defaults (tags : Z) :
  instantiations tags
  = [run_once_tags tags; no_block_tags tags]
    ++ (if truthy (measure_tags tags) then [] else [selector_defaults tags]).
Proof.
  unfold instantiations, selector_defaults.
  now destruct (truthy (measure_tags tags)),
    (truthy (modifier_tags tags .& (timer .| sync))).
Qed.

Ltac normalise :=
  repeat first [ rewrite <- (normalizations_commute flags_ok)
               | rewrite run_once_tags_idem
               | rewrite no_block_tags_idem
               | rewrite run_once_tags_selector_defaults
               | rewrite selector_defaults_no_block_tags ].

Lemma specialisations_closed (tags t t' : Z) :
  In t (specialisations tags) -> In t' (instantiations t) ->
  In t' (specialisations tags).
Proof using flags_ok.
  rewrite instantiations_defaults. unfold specialisations.
  destruct (truthy (measure_tags tags)) eqn:G; cbn [app In]; intros Ht.
  - destruct Ht as [<-|[<-|[<-|[<-|[]]]]];
      rewrite_has (tests_no_block_tags flags_ok plain_state (run_once_tags tags));
      rewrite_has (tests_run_once_tags flags_ok plain_state tags);
      rewrite_has (tests_no_block_tags flags_ok plain_state tags);
      rewrite ?G; cbn [app In]; normalise; tauto.
  - destruct Ht as [<-|[<-|[<-|[<-|[<-|[<-|[]]]]]]];
      rewrite_has (tests_no_block_tags flags_ok plain_state (run_once_tags tags));
      rewrite_has (tests_no_block_tags flags_ok plain_state (selector_defaults tags));
      rewrite_has (tests_run_once_tags flags_ok plain_state tags);
      rewrite_has (tests_no_block_tags flags_ok plain_state tags);
      rewrite_has (tests_selector_defaults flags_ok plain_state tags);
      rewrite ?G; cbn [app In]; normalise; tauto.
Qed.

Lemma specialisations_instantiated (tags t : Z) :
  In t (specialisations tags) -> instantiated tags t.
Proof.
  assert (Hr : instantiated tags (run_once_tags tags)).
  { apply (inst_next tags tags); [constructor | now left]. }
  assert (Hn : instantiated tags (no_block_tags tags)).
  { apply (inst_next tags tags); [constructor | right; now left]. }
  assert (Hrn : instantiated tags (no_block_tags (run_once_tags tags))).
  { apply (inst_next tags (run_once_tags tags)); [exact Hr | right; now left]. }
  unfold specialisations.
  destruct (truthy (measure_tags tags)) eqn:G; cbn [app In].
  - intros [<-|[<-|[<-|[<-|[]]]]]; trivial. constructor.
  - assert (Hd : instantiated tags (selector_defaults tags)).
    { apply (inst_next tags tags); [constructor|].
      rewrite instantiations_defaults, G. right. right. now left. }
    intros [<-|[<-|[<-|[<-|[<-|[<-|[]]]]]]]; trivial; [constructor|].
    apply (inst_next tags (selector_defaults tags)); [exact Hd | right; now left].
Qed.

(** X6: although the two normalisation tests of the body are run-time
    tests, so that both re-entries are instantiated whatever the state,
    the specialisations of [exec] a call needs are exactly the caller's
    tags, their run-once and no-block normalisations and the combination
    of the two, together with the defaulted tags, with and without
    [no_block], when the caller gave no selector: six tag sets at most. *)
Theorem specialisations_finite (tags : Z) :
  (forall t, instantiated tags t <-> In t (specialisations tags))
  /\ (List.length (specialisations tags) <= 6)%nat.
Proof using flags_ok.
  split.
  - intros t. split.
    + induction 1 as [|t t' _ IH Hin].
      * unfold specialisations. now left.
      * now apply (specialisations_closed tags t).
    + apply specialisations_instantiated.
  - unfold specialisations. destruct (truthy (measure_tags tags)); simpl; lia.
Qed.

(** X7: a call compiles exactly when the caller's own tags do not put [hot]
    together with [sync] or [timer]: no re-entry and no selector default
    trips an assertion that the caller's tags do not trip.  In particular
    every call without a selector compiles. *)
Theorem compiles_caller_tags (tags : Z) :
  (compiles tags <->
   (has tags hot = true -> has tags sync = false /\ has tags timer = false))
  /\ (measure_tags tags = 0 -> compiles tags).
Proof using flags_ok.
  assert (Hiff : compiles tags <->
                 (has tags hot = true ->
                  has tags sync = false /\ has tags timer = false)).
  { rewrite (compiles_accepted flags_ok), accepted_tests.
    destruct (has tags hot), (has tags sync), (has tags timer); simpl;
      intuition congruence. }
  split; [exact Hiff|].
  intros Hsel. apply Hiff. intros Hhot.
  assert (Hm : truthy (measure_tags tags) = false) by now apply truthy_false.
  rewrite truthy_measure_tags, Hhot, orb_true_r in Hm. discriminate.
Qed.

End Instantiation.

(** ** Calls with resolved tags *)

Section Direct.

Context {F : exec_flag}.
Hypothesis flags_ok : valid_flags F = true.

Lemma exec_resolved (st : state) (c : Z) (fuel : nat) :
  fully_resolved st c = true ->
  (1 <= fuel)%nat ->
  exec fuel st c
  = Some (if is_skipped st then [] else cold_branch c ++ hot_branch c).
Proof using flags_ok.
  intros Hc Hfuel. apply (exec_fuel_le flags_ok 1 fuel); [exact Hfuel|].
  cbn [exec]. rewrite (frame_resolved st c Hc). apply run_no_call.
  destruct (is_skipped st); [reflexivity | apply calls_measurements].
Qed.

(** X8: re-entering does not change what a call does.  A call with the
    tags its resolution reaches runs, in a single frame, exactly the
    measurements of the original call; and for each re-entry of a frame,
    the call resolves to what a call with the re-entered tags resolves to,
    and its trace is the re-entry followed by the trace of that call. *)
Theorem direct_call (st : state) (tags : Z) :
  exists c tr,
    (forall fuel, (3 <= fuel)%nat -> resolve fuel st tags = Some c)
    /\ (forall fuel, (3 <= fuel)%nat -> exec fuel st tags = Some tr)
    /\ (forall fuel, (1 <= fuel)%nat -> exec fuel st c = Some (measurements tr))
    /\ forall t, In t (calls (exec_frame st tags)) ->
         forall fuel, (3 <= fuel)%nat ->
           resolve fuel st t = Some c
           /\ exists tr', exec fuel st t = Some tr' /\ tr = call t :: tr'.
Proof using flags_ok.
  pose proof (fully_resolved_canonical flags_ok st tags) as Hfr.
  destruct (exec_measurements flags_ok st tags) as (ms & Hexec & Hms & Hnc).
  exists (canonical st tags), (map call (reentries 3 st tags) ++ ms).
  split; [|split; [exact Hexec|split]].
  - intros fuel Hfuel. apply (resolve_fuel_le 3 fuel); [exact Hfuel|].
    apply (resolve_canonical flags_ok).
  - intros fuel Hfuel. rewrite (measurements_map_call _ ms Hnc), Hms.
    now apply exec_resolved.
  - intros t Hin fuel Hfuel.
    destruct (frame_call flags_ok st tags t Hin) as [Hframe Hlt].
    pose proof (pending_le_2 st tags) as Hp.
    destruct (exec_trace flags_ok 2 st t) as (c & Hr & _ & He & _); [lia|].
    assert (Hc : c = canonical st tags).
    { pose proof (resolve_canonical flags_ok st tags) as H3.
      cbn [resolve] in H3. rewrite Hframe in H3. simpl in H3.
      cbn [resolve] in Hr. rewrite Hr in H3. now injection H3. }
    split.
    + rewrite <- Hc. apply (resolve_fuel_le 2 fuel); [lia | exact Hr].
    + eexists. split.
      * apply (exec_fuel_le flags_ok 2 fuel); [lia | exact He].
      * assert (H3 : exec 3 st tags
                     = Some (call t :: map call (reentries 2 st t)
                                       ++ exec_frame st c)).
        { rewrite (exec_step flags_ok), Hframe. simpl calls. cbv iota.
          now rewrite He. }
        rewrite (Hexec 3%nat (le_n 3)) in H3. now injection H3.
Qed.

(** X9: what the resolution does to the bits of the caller's tags.  The
    resolved tags contain every modifier bit of the caller's tags, and
    every bit of them when the run-once test does not fire; they contain
    nothing besides the caller's bits and the four flags [run_once],
    [no_block], [cold] and [hot]; and they are well-formed when the
    caller's tags are. *)
Theorem resolution_frame (st : state) (tags : Z) :
  exists c,
    (forall fuel, (3 <= fuel)%nat -> resolve fuel st tags = Some c)
    /\ modifier_tags tags .& c = modifier_tags tags
    /\ (run_once_fires st tags = false -> tags .& c = tags)
    /\ Z.ldiff c (tags .| run_once .| no_block .| cold .| hot) = 0
    /\ (is_exec_tag tags = true -> is_exec_tag c = true).
Proof using flags_ok.
  exists (canonical st tags). split.
  { intros fuel Hfuel. apply (resolve_fuel_le 3 fuel); [exact Hfuel|].
    apply (resolve_canonical flags_ok). }
  unfold is_exec_tag. rewrite !Z.eqb_eq.
  unfold canonical. cbv zeta.
  destruct (run_once_fires st tags);
    destruct (no_block_fires st _);
    destruct (truthy (measure_tags _));
    unfold selector_defaults;
    try destruct (truthy (modifier_tags _ .& (timer .| sync)));
    unfold no_block_tags, run_once_tags, modifier_tags, measure_mask,
      modifier_mask;
    (split; [|split; [|split]]);
    try (intros H; try discriminate H);
    tag_bits flags_ok.
Qed.

End Direct.

(** ** The further properties at the flags of the upstream header *)

Section UpstreamCalls.

#[local] Existing Instance nvbench_flags.

Lemma resolved_flags_witness :
  valid_flags nvbench_flags = true
  /\ exists c,
       resolve 3 profiling_state sync = Some c
       /\ has c sync = true
       /\ has c run_once = true
       /\ has c no_block = true
       /\ has c cold = true
       /\ has c hot = false.
Proof.
  split; [reflexivity|].
  destruct (resolved_flags nvbench_flags_valid profiling_state sync)
    as (c & Hr & _ & Hsync & Hro & Hnb & Hcold & Hhot & _).
  exists c. split; [apply Hr; constructor|].
  split; [exact Hsync|]. split; [exact Hro|]. split; [exact Hnb|].
  split; [exact Hcold | exact Hhot].
Defined.

Lemma measurements_run_witness :
  valid_flags nvbench_flags = true
  /\ exists tr,
       exec 3 no_block_state 0 = Some tr
       /\ count (invokes is_cold) tr = 1%nat
       /\ count (invokes is_hot) tr = 1%nat.
Proof.
  split; [reflexivity|].
  destruct (measurements_run nvbench_flags_valid no_block_state 0)
    as (tr & He & Hcold & Hhot & _).
  exists tr. split; [apply He; constructor|].
  split; [exact Hcold | exact Hhot].
Defined.

Lemma blocking_kernel_use_witness :
  valid_flags nvbench_flags = true
  /\ exists tr,
       exec 3 no_block_state hot = Some tr
       /\ forall e m, In e tr -> measurement e = Some m ->
                      use_blocking_kernel_of m = false.
Proof.
  split; [reflexivity|].
  destruct (blocking_kernel_use nvbench_flags_valid no_block_state hot)
    as (tr & He & Hbk).
  exists tr. split; [apply He; constructor | exact Hbk].
Defined.

Lemma launcher_use_witness :
  valid_flags nvbench_flags = true
  /\ exists tr,
       exec 3 plain_state 0 = Some tr
       /\ (forall e m, In e tr -> measurement e = Some m ->
                       launcher_of m = if is_cold m then wrapper_t else KL)
       /\ count (fun e => match e with wrap => true | _ => false end) tr
          = count (invokes is_cold) tr.
Proof.
  split; [reflexivity|].
  destruct (launcher_use nvbench_flags_valid plain_state 0)
    as (tr & He & Hl & Hw).
  exists tr. split; [apply He; constructor|]. split; [|exact Hw].
  intros e m Hin Hm. rewrite (Hl e m Hin Hm). now destruct (is_cold m).
Defined.

Lemma trace_order_witness :
  valid_flags nvbench_flags = true
  /\ exists tr,
       exec 3 plain_state 0 = Some tr
       /\ StronglySorted (fun a b => (phase a < phase b)%nat) (measurements tr).
Proof.
  split; [reflexivity|].
  destruct (trace_order nvbench_flags_valid plain_state 0)
    as (tr & rs & He & _ & _ & Hs).
  exists tr. split; [apply He; constructor | exact Hs].
Defined.

Lemma specialisations_finite_witness :
  valid_flags nvbench_flags = true
  /\ (forall t, instantiated timer t <-> In t (specialisations timer))
  /\ (List.length (specialisations timer) <= 6)%nat.
Proof.
  split; [reflexivity|].
  exact (specialisations_finite nvbench_flags_valid timer).
Defined.

Lemma compiles_caller_tags_witness :
  valid_flags nvbench_flags = true
  /\ compiles sync
  /\ ~ compiles (hot .| sync).
Proof.
  split; [reflexivity|].
  pose proof (compiles_caller_tags nvbench_flags_valid sync) as Hs.
  pose proof (compiles_caller_tags nvbench_flags_valid (hot .| sync)) as Hh.
  split.
  - apply (proj2 Hs). reflexivity.
  - intros Hc. apply (proj1 (proj1 Hh)) in Hc; [|reflexivity].
    destruct Hc as [Hc _]. discriminate Hc.
Defined.

Lemma direct_call_witness :
  valid_flags nvbench_flags = true
  /\ exists c tr,
       resolve 3 profiling_state hot = Some c
       /\ exec 3 profiling_state hot = Some tr
       /\ exec 1 profiling_state c = Some (measurements tr).
Proof.
  split; [reflexivity|].
  destruct (direct_call nvbench_flags_valid profiling_state hot)
    as (c & tr & Hr & He & Hd & _).
  exists c, tr. split; [apply Hr; constructor|].
  split; [apply He; constructor | apply Hd; constructor].
Defined.

Lemma resolution_frame_witness :
  valid_flags nvbench_flags = true
  /\ exists c,
       resolve 3 no_block_state (hot .| sync) = Some c
       /\ (hot .| sync) .& c = hot .| sync
       /\ is_exec_tag c = true.
Proof.
  split; [reflexivity|].
  destruct (resolution_frame nvbench_flags_valid no_block_state (hot .| sync))
    as (c & Hr & _ & Hkeep & _ & Hwf).
  exists c. split; [apply Hr; constructor|].
  split; [apply Hkeep; reflexivity | apply Hwf; reflexivity].
Defined.

Lemma single_run_witness :
  valid_flags nvbench_flags = true
  /\ has (cold .| hot) run_once = false
  /\ get_run_once run_once_state = true
  /\ exists c tr,
       resolve 3 run_once_state (cold .| hot) = Some c
       /\ exec 3 run_once_state (cold .| hot) = Some tr
       /\ measure_tags c = cold
       /\ count (uses is_hot) tr = 0%nat
       /\ count (invokes (fun _ => true)) tr = 1%nat.
Proof.
  do 3 (split; [reflexivity|]).
  pose proof (single_run nvbench_flags_valid run_once_state (cold .| hot)) as H.
  destruct (H eq_refl eq_refl) as (c & tr & Hr & He & Hsel & _ & Hhot & Hone).
  exists c, tr. split; [apply Hr; constructor|].
  split; [apply He; constructor|]. split; [exact Hsel|].
  split; [exact Hhot | apply Hone; reflexivity].
Defined.

Lemma reentry_count_witness :
  valid_flags nvbench_flags = true
  /\ exists tr,
       exec 3 no_block_state 0 = Some tr
       /\ count is_call tr = 2%nat.
Proof.
  split; [reflexivity|].
  destruct (reentry_count nvbench_flags_valid no_block_state 0)
    as (tr & He & Hcount & _).
  exists tr. split; [apply He; constructor | exact Hcount].
Defined.

End UpstreamCalls.
